(** * matchms metadata harmonization: a shallow embedding

    Sources embedded here:
    - [matchms/filtering/metadata_filters.py]: [_convert_precursor_mz],
      [_add_precursor_mz_metadata];
    - [matchms/Metadata.py]: class [Metadata] ([__init__], [__eq__],
      [harmonize_metadata], [get], [set], [__getitem__], [__setitem__]);
    - [matchms/filtering/clean_inchis.py]: [clean_inchis].

    Conventions.
    - A Python value is a [pyvalue]: an atom (None, bool, int, float, str), a
      list or tuple of atoms, a one-dimensional float64 [numpy.ndarray], or
      an opaque object that supports none of the operations used here.
    - Python [float] is IEEE binary64, i.e. Rocq's primitive [float].
    - [str] is a [string] of 8-bit characters; case mapping and white space
      are those of the ASCII range.
    - A raised exception is the [Raise] branch of [result].
    - The record store is the [PickyDict] held in [Metadata._data].  PickyDict
      (package [pickydict]) rewrites a key when it is written: lower case, the
      regex replacements, then the alias table, which is configuration loaded
      from outside the sources.  The embedding is about the values: the store
      is a finite map from [string] to [pyvalue] whose keys are taken as they
      are, so that writing a key and installing the key tables (first two
      statements of [harmonize_metadata]) do not rename anything.  The alias
      keys [precursormz] and [precursor_mass] are keys like any other, as
      [_add_precursor_mz_metadata] itself looks them up and removes them.
    - Calls to [logger] and [print] do not change any value and are left out. *)

From Stdlib Require Import ZArith Floats Ascii String Bool Lia.
From stdpp Require Import gmap strings list.

Local Open Scope Z_scope.
Local Open Scope string_scope.

(** String concatenation computes on a literal first operand. *)
#[local] Arguments String.append !s1 s2 : simpl nomatch.

(** ** Exceptions and results *)

Inductive exn :=
| ValueError (msg : string)
| TypeError
| AttributeError
| IndexError
| OverflowError
| ConverterError (code : nat).

Inductive result (A : Type) :=
| Ok (a : A)
| Raise (e : exn).
Arguments Ok {A} a.
Arguments Raise {A} e.

Definition rbind {A B} (r : result A) (k : A -> result B) : result B :=
  match r with
  | Ok a => k a
  | Raise e => Raise e
  end.

Notation "'let*' x := r 'in' k" := (rbind r (fun x => k))
  (at level 10, x name, r at level 100, k at level 200).

(** ** Python values *)

Inductive scalar :=
| SNone
| SBool (b : bool)
| SInt (z : Z)
| SFloat (f : float)
| SStr (s : string).

Inductive pyvalue :=
| VAtom (a : scalar)
| VList (l : list scalar)
| VTuple (l : list scalar)
| VArray (l : list float)
| VObj (id : nat).

Abbreviation VNone := (VAtom SNone).
Abbreviation VBool b := (VAtom (SBool b)).
Abbreviation VInt z := (VAtom (SInt z)).
Abbreviation VFloat f := (VAtom (SFloat f)).
Abbreviation VStr s := (VAtom (SStr s)).

(** [v is None] *)
Definition is_None (v : pyvalue) : bool :=
  match v with VNone => true | _ => false end.

(** [isinstance(v, str)] *)
Definition isinstance_str (v : pyvalue) : bool :=
  match v with VStr _ => true | _ => false end.

(** [isinstance(v, int)]: [bool] is a subclass of [int]. *)
Definition isinstance_int (v : pyvalue) : bool :=
  match v with VInt _ | VBool _ => true | _ => false end.

(** [isinstance(v, float)] *)
Definition isinstance_float (v : pyvalue) : bool :=
  match v with VFloat _ => true | _ => false end.

(** ** Numbers *)

(** [float(z)] for an [int]: rounding to nearest even; [None] stands for the
    [OverflowError] of an integer too large for a binary64. *)
Definition float_of_Z (z : Z) : option float :=
  match binary_normalize 53 1024 z 0 false with
  | S754_infinity _ => None
  | S754_nan => None
  | sf => Some (SF2Prim sf)
  end.

(** [f == z] for a float and an int: Python compares the exact values. *)
Definition float_eq_Z (f : float) (z : Z) : bool :=
  match Prim2SF f with
  | S754_zero _ => Z.eqb z 0
  | S754_finite s m e =>
      let v := if s then Z.opp (Z.pos m) else Z.pos m in
      if Z.leb 0 e then Z.eqb z (v * 2 ^ e) else Z.eqb (z * 2 ^ (- e)) v
  | _ => false
  end.

Definition Z_of_bool (b : bool) : Z := if b then 1 else 0.

(** [a == b] on atoms.  Numbers compare across [bool], [int] and [float]. *)
Definition scalar_eqb (a b : scalar) : bool :=
  match a, b with
  | SNone, SNone => true
  | SStr s, SStr t => String.eqb s t
  | SBool x, SBool y => Z.eqb (Z_of_bool x) (Z_of_bool y)
  | SBool x, SInt z | SInt z, SBool x => Z.eqb (Z_of_bool x) z
  | SInt x, SInt y => Z.eqb x y
  | SFloat f, SBool x | SBool x, SFloat f => float_eq_Z f (Z_of_bool x)
  | SFloat f, SInt z | SInt z, SFloat f => float_eq_Z f z
  | SFloat f, SFloat g => PrimFloat.eqb f g
  | _, _ => false
  end.

(** [xs == ys] on the items of two lists or tuples, item by item and by
    value.  Python first tests each pair of items for identity, which a value
    of this embedding does not have: for one NaN object held by both
    sequences Python answers [True] where this function answers [false].  The
    two agree on sequences without a NaN. *)
Fixpoint scalars_eqb (xs ys : list scalar) : bool :=
  match xs, ys with
  | [], [] => true
  | x :: xs', y :: ys' => scalar_eqb x y && scalars_eqb xs' ys'
  | _, _ => false
  end.

Fixpoint floats_eqb (xs ys : list float) : bool :=
  match xs, ys with
  | [], [] => true
  | x :: xs', y :: ys' => PrimFloat.eqb x y && floats_eqb xs' ys'
  | _, _ => false
  end.

(** ** Strings *)

Definition is_space (c : ascii) : bool :=
  let n := nat_of_ascii c in
  ((9 <=? n) && (n <=? 13) || (28 <=? n) && (n <=? 32))%nat.

Definition lower_ascii (c : ascii) : ascii :=
  let n := nat_of_ascii c in
  if ((65 <=? n) && (n <=? 90))%nat then ascii_of_nat (n + 32) else c.

(** [s.lower()] *)
Fixpoint py_lower (s : string) : string :=
  match s with
  | EmptyString => EmptyString
  | String c s' => String (lower_ascii c) (py_lower s')
  end.

Fixpoint py_lstrip (s : string) : string :=
  match s with
  | EmptyString => EmptyString
  | String c s' => if is_space c then py_lstrip s' else s
  end.

Fixpoint py_rstrip (s : string) : string :=
  match s with
  | EmptyString => EmptyString
  | String c s' =>
      match py_rstrip s' with
      | EmptyString => if is_space c then EmptyString else String c EmptyString
      | r => String c r
      end
  end.

(** [s.strip()] *)
Definition py_strip (s : string) : string := py_lstrip (py_rstrip s).

(** [s.replace(old, new)] for a one-character [old]. *)
Fixpoint py_replace (old : ascii) (new : string) (s : string) : string :=
  match s with
  | EmptyString => EmptyString
  | String c s' =>
      if Ascii.eqb c old then new ++ py_replace old new s'
      else String c (py_replace old new s')
  end.

(** [s.split(sep)] for a non-empty [sep]: pieces between the occurrences of
    [sep], found from the left without overlap.  [skip] counts the characters
    of a separator just found that are still to be passed over. *)
Fixpoint split_go (sep : string) (skip : nat) (cur : string) (s : string)
  : list string :=
  match s with
  | EmptyString => [cur]
  | String c s' =>
      match skip with
      | S k => split_go sep k cur s'
      | O =>
          if String.prefix sep s
          then cur :: split_go sep (String.length sep - 1) EmptyString s'
          else split_go sep 0 (cur ++ String c EmptyString) s'
      end
  end.

Definition py_split (sep : string) (s : string) : list string :=
  split_go sep 0 EmptyString s.

(** [s.split(sep)[-1]] *)
Definition split_last (sep : string) (s : string) : string :=
  List.last (py_split sep s) EmptyString.

(** [s.endswith(suffix)] *)
Definition py_endswith (suffix : string) (s : string) : bool :=
  let n := String.length suffix in
  let l := String.length s in
  (n <=? l)%nat && String.eqb (String.substring (l - n) n s) suffix.

(** [s[:-n]] for [n > 0] *)
Definition drop_last (n : nat) (s : string) : string :=
  String.substring 0 (String.length s - n) s.

(** [c in s] for a character *)
Fixpoint str_mem (c : ascii) (s : string) : bool :=
  match s with
  | EmptyString => false
  | String d s' => Ascii.eqb d c || str_mem c s'
  end.

(** [sep in s]: some suffix of [s] starts with [sep]. *)
Fixpoint occurs (sep : string) (s : string) : bool :=
  String.prefix sep s ||
  match s with
  | EmptyString => false
  | String _ s' => occurs sep s'
  end.

(** [x in l] for a string and a list of strings *)
Definition str_in (s : string) (l : list string) : bool :=
  existsb (String.eqb s) l.

(** ** Indexing *)

(** [v[0]]: the first item of a sequence; [TypeError] for a value that is
    not subscriptable, [IndexError] for an empty sequence.  The first item
    of a [str] is a one-character [str], that of a float64 array is a
    [numpy.float64], which is a [float]. *)
Definition py_index0 (v : pyvalue) : result pyvalue :=
  match v with
  | VStr (String c _) => Ok (VStr (String c EmptyString))
  | VList (x :: _) | VTuple (x :: _) => Ok (VAtom x)
  | VArray (f :: _) => Ok (VFloat f)
  | VStr EmptyString | VList [] | VTuple [] | VArray [] => Raise IndexError
  | VAtom _ | VObj _ => Raise TypeError
  end.

(** ** Characters and literals used by the sources *)

Definition dquote : string := String "034"%char EmptyString.
Definition newline : string := String "010"%char EmptyString.
Definition tab_cr_lf : string :=
  String "009"%char (String "013"%char (String "010"%char EmptyString)).

(** ** Sample readings of the external functions

    The functions below stand in for code that is not part of the sources
    when the definitions are run on concrete records. *)

Definition digit_of (c : ascii) : option Z :=
  let n := nat_of_ascii c in
  if ((48 <=? n) && (n <=? 57))%nat then Some (Z.of_nat (n - 48)) else None.

Fixpoint read_decimal (s : string) (seen_dot : bool) (mant scale : Z)
  (ndigits : nat) : option (Z * Z) :=
  match s with
  | EmptyString => if (ndigits =? 0)%nat then None else Some (mant, scale)
  | String c s' =>
      if Ascii.eqb c "."%char then
        if seen_dot then None else read_decimal s' true mant scale ndigits
      else
        match digit_of c with
        | Some d =>
            read_decimal s' seen_dot (10 * mant + d)
              (if seen_dot then 10 * scale else scale) (S ndigits)
        | None => None
        end
  end.

(** A reading of plain decimal literals (sign, digits, optional point) as
    binary64.  Python's [float] accepts more spellings (exponents, [inf],
    [nan], underscores); the development is stated for an arbitrary
    [float_of_str] and uses this one only on literals of this shape. *)
Definition float_of_decimal (s : string) : option float :=
  let s := py_strip s in
  let '(neg, body) :=
    match s with
    | String "-"%char r => (true, r)
    | String "+"%char r => (false, r)
    | _ => (false, s)
    end in
  match read_decimal body false 0 1 0 with
  | Some (m, sc) =>
      match float_of_Z m, float_of_Z sc with
      | Some fm, Some fs =>
          Some (if neg then PrimFloat.opp (PrimFloat.div fm fs)
                else PrimFloat.div fm fs)
      | _, _ => None
      end
  | None => None
  end.

Fixpoint read_digits (s : string) (acc : Z) (ndigits : nat) : option Z :=
  match s with
  | EmptyString => if (ndigits =? 0)%nat then None else Some acc
  | String c s' =>
      match digit_of c with
      | Some d => read_digits s' (10 * acc + d) (S ndigits)
      | None => None
      end
  end.

(** Modelled from the spec: [_convert_charge_to_int]
    (matchms/filtering/make_charge_int.py is not among the sources).
    Section 4.5: an integer is kept; signed numeric strings such as ["2+"],
    ["-1"], ["2"] convert; a conversion that fails yields no charge rather
    than an error.  Floats and structured notations, which the spec also
    mentions without giving their reading, are not converted here. *)
Definition convert_charge_to_int_spec (charge : pyvalue) : option Z :=
  match charge with
  | VInt z => Some z
  | VBool b => Some (Z_of_bool b)
  | VStr s =>
      let s := py_strip s in
      let sign_first :=
        match s with
        | String "-"%char r => Some (true, r)
        | String "+"%char r => Some (false, r)
        | _ => None
        end in
      match sign_first with
      | Some (neg, r) =>
          option_map (fun n => if neg then - n else n) (read_digits r 0 0)
      | None =>
          if py_endswith "+" s then read_digits (drop_last 1 s) 0 0
          else if py_endswith "-" s
               then option_map Z.opp (read_digits (drop_last 1 s) 0 0)
               else read_digits s 0 0
      end
  | _ => None
  end.

(** A converter that knows one structure: acetic acid. *)
Definition mol_converter_sample (mol_input input_type output_type : string)
  : result pyvalue :=
  if String.eqb mol_input "CC(=O)O"
  then Ok (VStr "InChI=1S/C2H4O2/c1-2(3)4/h1H3,(H,3,4)")
  else Ok VNone.

(** numpy on operands that are not two arrays of one shape: a reading in
    which an array is compared with a number by broadcasting and every other
    combination raises. *)
Definition np_all_eq_other_sample (value : list float) (other : pyvalue)
  : result bool :=
  match other with
  | VFloat g => Ok (forallb (fun x => PrimFloat.eqb x g) value)
  | VInt z => Ok (forallb (fun x => float_eq_Z x z) value)
  | VBool b => Ok (forallb (fun x => float_eq_Z x (Z_of_bool b)) value)
  | _ => Raise (ValueError "operands could not be broadcast together")
  end.

Definition np_ne_truth_sample (value : pyvalue) (other : list float)
  : result bool :=
  Raise (ValueError "The truth value of an array is ambiguous").

Definition np_in_sample (value : list float) (entries : list pyvalue)
  : result bool :=
  Raise (ValueError "The truth value of an array is ambiguous").

(** ** Sample records, as lists of items *)

(** the record of the spec's priority example *)
Definition items_alias_and_pepmass : list (string * pyvalue) :=
  [("precursormz", VStr "100.5");
   ("pepmass", VList [SFloat 50.25; SInt 10])].

(** two alias keys, the first of them without a value *)
Definition items_two_aliases : list (string * pyvalue) :=
  [("precursormz", VStr "N/A"); ("precursor_mass", VFloat 100.5);
   ("pepmass", VList [SFloat 50.25; SInt 10])].

(** an alias key without a value beside a usable [pepmass] *)
Definition items_unusable_alias : list (string * pyvalue) :=
  [("precursormz", VStr "N/A"); ("pepmass", VList [SFloat 120.5; SInt 5])].


(** a [pepmass] that is a number, not a sequence *)
Definition items_scalar_pepmass : list (string * pyvalue) :=
  [("pepmass", VFloat 120.5)].

(** upper-case ion mode, a signed charge string, an alias key *)
Definition items_raw : list (string * pyvalue) :=
  [("ionmode", VStr "POSITIVE"); ("charge", VStr "2+");
   ("precursormz", VStr "100.5")].

(** a record with an array-valued field *)
Definition items_intensities : list (string * pyvalue) :=
  [("compound_name", VStr "ethanol");
   ("intensities", VArray [1%float; 2.5%float])].

(** the payload of the InChI of ethanol *)
Definition ethanol_payload : string := "1S/C2H6O/c1-2-3/h3H,2H2,1H3".

Definition record_of (its : list (string * pyvalue)) : gmap string pyvalue :=
  list_to_map its.

Section Harmonization.

(** ** External functions *)

(** Python's [float(s)] on a [str]; [None] stands for its [ValueError]. *)
Variable float_of_str : string -> option float.

(** [matchms.filtering.make_charge_int._convert_charge_to_int]: the charge
    as an [int], or [None]. *)
Variable _convert_charge_to_int : pyvalue -> option Z.

(** [matchms.utils.mol_converter(mol_input, input_type, output_type)]: the
    converted structure, [None], or an exception. *)
Variable mol_converter : string -> string -> string -> result pyvalue.

(** numpy: [np.all(value == other)] for an array [value] when [other] is not
    an array of the same length (broadcasting, or the library's answer to a
    shape mismatch); the truth value of [value != other] for a [value] that
    is not an array and an array [other]; and [value in entries] for an
    array [value]. *)
Variable np_all_eq_other : list float -> pyvalue -> result bool.
Variable np_ne_truth : pyvalue -> list float -> result bool.
Variable np_in : list float -> list pyvalue -> result bool.

(** ** Builtins on values *)

(** [float(v)] *)
Definition py_float (v : pyvalue) : result float :=
  match v with
  | VFloat f => Ok f
  | VInt z =>
      match float_of_Z z with
      | Some f => Ok f
      | None => Raise OverflowError
      end
  | VBool b => Ok (if b then 1%float else 0%float)
  | VStr s =>
      match float_of_str s with
      | Some f => Ok f
      | None => Raise (ValueError "could not convert string to float")
      end
  | _ => Raise TypeError
  end.

(** [v.lower()] *)
Definition lower (v : pyvalue) : result pyvalue :=
  match v with
  | VStr s => Ok (VStr (py_lower s))
  | _ => Raise AttributeError
  end.

(** [value == other] when neither side is an array *)
Definition py_eqb (value other : pyvalue) : bool :=
  match value, other with
  | VAtom a, VAtom b => scalar_eqb a b
  | VList xs, VList ys => scalars_eqb xs ys
  | VTuple xs, VTuple ys => scalars_eqb xs ys
  | VObj n, VObj m => Nat.eqb n m
  | _, _ => false
  end.

(** [np.all(value == other)] for an array [value] *)
Definition np_all_eq (value : list float) (other : pyvalue) : result bool :=
  match other with
  | VArray ys =>
      if (length value =? length ys)%nat then Ok (floats_eqb value ys)
      else np_all_eq_other value other
  | _ => np_all_eq_other value other
  end.

(** the truth value of [value != other] for a [value] that is not an array *)
Definition py_ne (value other : pyvalue) : result bool :=
  match other with
  | VArray ys => np_ne_truth value ys
  | _ => Ok (negb (py_eqb value other))
  end.

(** [value in entries] for a list [entries] *)
Definition py_in (value : pyvalue) (entries : list pyvalue) : result bool :=
  match value with
  | VArray xs => np_in xs entries
  | _ => Ok (existsb (py_eqb value) entries)
  end.

(** ** The store: [dict] operations *)

(** [metadata.get(key)], [metadata.get(key, None)] *)
Definition dict_get (metadata : gmap string pyvalue) (key : string) : pyvalue :=
  default VNone (metadata !! key).

(** [metadata.get(key)] for a key that may be [None] *)
Definition dict_get_opt (metadata : gmap string pyvalue) (key : option string)
  : pyvalue :=
  match key with
  | Some k => dict_get metadata k
  | None => VNone
  end.

(** [metadata.pop(key, None)] *)
Definition dict_pop (metadata : gmap string pyvalue) (key : string)
  : gmap string pyvalue :=
  delete key metadata.

(** ** matchms/filtering/metadata_filters.py *)

(** Modelled from the spec: [matchms.utils.get_first_common_element] is not
    among the sources.  Section 4.3, step 1: the candidates are searched in
    their declared order (the canonical name first, then the aliases) and
    the first one present in the mapping is taken; [None] when there is
    none. *)
Definition get_first_common_element (first : gset string)
  (second : list string) : option string :=
  List.find (fun item => bool_decide (item ∈ first)) second.

Definition _default_key : string := "precursor_mz".
Definition _accepted_keys : list string := ["precursormz"; "precursor_mass"].
Definition _accepted_missing_entries : list string := [""; "N/A"; "NA"; "n/a"].

(** [isinstance(v, _accepted_types)] with [_accepted_types = (float, str, int)] *)
Definition isinstance_accepted_types (v : pyvalue) : bool :=
  isinstance_float v || isinstance_str v || isinstance_int v.

(** [v in _accepted_missing_entries] *)
Definition in_accepted_missing_entries (v : pyvalue) : bool :=
  match v with
  | VStr s => str_in s _accepted_missing_entries
  | _ => false
  end.

Definition _convert_precursor_mz (precursor_mz : pyvalue) : pyvalue :=
  if is_None precursor_mz then VNone
  else if isinstance_str precursor_mz && in_accepted_missing_entries precursor_mz
  then VNone
  else if negb (isinstance_accepted_types precursor_mz) then VNone
  else
    match precursor_mz with
    | VStr s =>
        match float_of_str (py_strip s) with
        | Some f => VFloat f
        | None => VNone
        end
    | _ => precursor_mz
    end.

Definition _add_precursor_mz_metadata (metadata : gmap string pyvalue)
  : result (gmap string pyvalue) :=
  let precursor_mz_key :=
    get_first_common_element (dom metadata) (_default_key :: _accepted_keys) in
  let precursor_mz := dict_get_opt metadata precursor_mz_key in
  let precursor_mz := _convert_precursor_mz precursor_mz in
  if isinstance_float precursor_mz || isinstance_int precursor_mz then
    let* f := py_float precursor_mz in
    let metadata := <["precursor_mz" := VFloat f]> metadata in
    Ok (foldl dict_pop metadata _accepted_keys)
  else
    let pepmass := dict_get metadata "pepmass" in
    if negb (is_None pepmass) then
      let* token := py_index0 pepmass in
      if negb (is_None (_convert_precursor_mz token))
      then Ok (<["precursor_mz" := token]> metadata)
      else Ok metadata
    else Ok metadata.

(** Modelled from the spec: [_interpret_pepmass_metadata]
    (matchms/filtering/interpret_pepmass.py is not among the sources).
    Section 4.2: it takes the first token of [pepmass] as the precursor mass
    candidate, "leaves the field available for PrecursorMzResolver; does not
    itself write precursor_mz", and tolerates a missing, scalar or malformed
    [pepmass] without raising.  The store comes back as it was; the
    candidate is what [_add_precursor_mz_metadata] reads as [pepmass[0]]. *)
Definition _interpret_pepmass_metadata (metadata : gmap string pyvalue)
  : result (gmap string pyvalue) :=
  Ok metadata.

(** ** matchms/Metadata.py *)

Record Metadata := mkMetadata {
  _data : gmap string pyvalue;
  harmonize_defaults : bool
}.

(** the assignment [self._data = d] *)
Definition with_data (self : Metadata) (d : gmap string pyvalue) : Metadata :=
  {| _data := d; harmonize_defaults := harmonize_defaults self |}.

(** The assignment [self._data[key] = value], for a key that the store keeps
    under its own name.  [PickyDict.__setitem__] first rewrites the key
    (lower case, regex replacements, alias table) and raises on a clash
    between the rewritten key and an entry already there; that code and the
    alias table are not among the sources, and the rewriting has no
    counterpart here.  The statements of the sources only write the keys
    [ionmode], [precursor_mz], [charge] and [inchi]. *)
Definition setitem_data (self : Metadata) (key : string) (value : pyvalue)
  : Metadata :=
  with_data self (<[key := value]> (_data self)).

(** [Metadata.get(key)]: [self._data.copy().get(key, None)] *)
Definition get (self : Metadata) (key : string) : pyvalue :=
  dict_get (_data self) key.

(** [Metadata.keys()] *)
Definition keys (self : Metadata) : gset string := dom (_data self).

(** [Metadata.items()].  Python visits the items in insertion order, the
    enumeration of the finite map is another order; see [eq_items]. *)
Definition items (self : Metadata) : list (string * pyvalue) :=
  map_to_list (_data self).

(** [harmonize_metadata], the statements on [ionmode]. *)
Definition harmonize_ionmode (self : Metadata) : result Metadata :=
  let* self :=
    if negb (is_None (get self "ionmode")) then
      let* lowered := lower (get self "ionmode") in
      Ok (setitem_data self "ionmode" lowered)
    else Ok self in
  if is_None (get self "ionmode")
  then Ok (setitem_data self "ionmode" (VStr "n/a"))
  else Ok self.

(** The Python value returned by [_convert_charge_to_int]. *)
Definition charge_value (converted : option Z) : pyvalue :=
  match converted with
  | Some z => VInt z
  | None => VNone
  end.

(** [harmonize_metadata], the statements on [charge]. *)
Definition harmonize_charge (self : Metadata) : Metadata :=
  let charge := get self "charge" in
  if negb (isinstance_int charge)
     && negb (is_None (charge_value (_convert_charge_to_int charge)))
  then setitem_data self "charge" (charge_value (_convert_charge_to_int charge))
  else self.

(** [Metadata.harmonize_metadata].  Its first two statements install the
    key tables [_key_regex_replacements] and [_key_replacements] on the
    store, which lets PickyDict rename the keys already there (a key with a
    space, an alias such as [precursor_mass]).  The tables come from outside
    the sources and the renaming has no counterpart here: the definition is
    the pass on a store whose keys the tables leave as they are, and what is
    proved of it concerns the values under [ionmode], [precursor_mz],
    [pepmass] and [charge]. *)
Definition harmonize_metadata (self : Metadata) : result Metadata :=
  let* d := _interpret_pepmass_metadata (_data self) in
  let self := with_data self d in
  let* self := harmonize_ionmode self in
  let* d := _add_precursor_mz_metadata (_data self) in
  let self := with_data self d in
  Ok (harmonize_charge self).

(** The argument of the constructor: a mapping, or any other value. *)
Inductive init_arg :=
| ArgMapping (m : gmap string pyvalue)
| ArgValue (v : pyvalue).

(** [Metadata.__init__], statements up to the [raise]: the store.
    [PickyDict(metadata)] also rewrites the keys of the mapping (lower case
    by default); here the mapping is taken with the keys it has, see
    [setitem_data]. *)
Definition init_data (metadata : init_arg) : result (gmap string pyvalue) :=
  match metadata with
  | ArgValue VNone => Ok ∅
  | ArgMapping m => Ok m
  | ArgValue _ =>
      Raise (ValueError
        "Unexpected data type for metadata (should be dictionary, or None).")
  end.

Definition __init__ (metadata : init_arg) (harmonize_defaults : bool)
  : result Metadata :=
  let* d := init_data metadata in
  let self := {| _data := d; harmonize_defaults := harmonize_defaults |} in
  if harmonize_defaults then harmonize_metadata self else Ok self.

(** [Metadata.set(key, value)] *)
Definition set (self : Metadata) (key : string) (value : pyvalue)
  : result Metadata :=
  let self := setitem_data self key value in
  if harmonize_defaults self then harmonize_metadata self else Ok self.

Definition __getitem__ (self : Metadata) (key : string) : pyvalue :=
  get self key.

Definition __setitem__ (self : Metadata) (key : string) (newvalue : pyvalue)
  : result Metadata :=
  set self key newvalue.

(** The loop of [__eq__] over the items of [self]. *)
Fixpoint eq_items (its : list (string * pyvalue)) (other_metadata : Metadata)
  : result bool :=
  match its with
  | [] => Ok true
  | (key, value) :: rest =>
      match value with
      | VArray xs =>
          let* all_eq := np_all_eq xs (get other_metadata key) in
          if negb all_eq then Ok false else eq_items rest other_metadata
      | _ =>
          let* differs := py_ne value (get other_metadata key) in
          if differs then Ok false else eq_items rest other_metadata
      end
  end.

Definition __eq__ (self other_metadata : Metadata) : result bool :=
  if negb (bool_decide (keys self = keys other_metadata)) then Ok false
  else eq_items (items self) other_metadata.

(** ** matchms/filtering/clean_inchis.py *)

(** Modelled from the spec: class [Spectrum] is not among the sources.
    [clean_inchis] reads and writes [spectrum.metadata[...]], the record of
    the spectrum (section 4.6: "the repaired inchi string replaces the field
    in place"); the peaks are not used. *)
Record Spectrum := mkSpectrum { metadata : Metadata }.

Definition empty_entry_types : list pyvalue :=
  [ VStr "N/A"; VStr "n/a"; VStr "NA"; VInt 0; VStr "0";
    VStr (dquote ++ dquote); VStr ""; VStr "nodata";
    VStr (dquote ++ "InChI=n/a" ++ dquote); VStr (dquote ++ "InChI=" ++ dquote);
    VStr ("InChI=1S/N" ++ newline); VStr tab_cr_lf ].

(** [c in ['C', 'c', 'O', 'N']] *)
Definition looks_like_smiles (c : pyvalue) : bool :=
  existsb (py_eqb c) [VStr "C"; VStr "c"; VStr "O"; VStr "N"].

(** the [if]/[elif] chain that wraps the payload *)
Definition wrap_inchi (inchi : string) : string :=
  if py_endswith dquote inchi then dquote ++ "InChI=" ++ inchi
  else if py_endswith newline inchi
  then dquote ++ "InChI=" ++ drop_last 2 inchi ++ dquote
  else if py_endswith (newline ++ dquote) inchi
  then dquote ++ "InChI=" ++ drop_last 3 inchi ++ dquote
  else dquote ++ "InChI=" ++ inchi ++ dquote.

(** A call of [mol_converter], by its arguments. *)
Definition call : Type := string * string * string.

(** The statements of [clean_inchis] between the read and the write of the
    field: the new value of [inchi], with the converter calls made. *)
Definition repaired_inchi (inchi : pyvalue) (rescue_smiles : bool)
  : list call * result pyvalue :=
  match py_in inchi empty_entry_types with
  | Raise e => ([], Raise e)
  | Ok true => ([], Ok (VStr "n/a"))
  | Ok false =>
      match inchi with
      | VStr s =>
          let inchi := py_replace " " "" s in
          match py_index0 (VStr (split_last "InChI=" inchi)) with
          | Raise e => ([], Raise e)
          | Ok first =>
              let '(calls, working) :=
                if looks_like_smiles first && rescue_smiles then
                  let assumed_smile :=
                    py_replace "034" "" (split_last "InChI=" inchi) in
                  ([(assumed_smile, "smi", "inchi")],
                   mol_converter assumed_smile "smi" "inchi")
                else ([], Ok (VStr inchi)) in
              (calls,
               let* working := working in
               match working with
               | VStr w =>
                   Ok (VStr (wrap_inchi (split_last "InChI=" (py_strip w))))
               | _ => Raise AttributeError
               end)
          end
      | _ => ([], Raise AttributeError)
      end
  end.

Definition clean_inchis (spectrum : Spectrum) (rescue_smiles : bool)
  : list call * result Spectrum :=
  let inchi := __getitem__ (metadata spectrum) "inchi" in
  let '(calls, inchi) := repaired_inchi inchi rescue_smiles in
  (calls,
   let* inchi := inchi in
   let* md := __setitem__ (metadata spectrum) "inchi" inchi in
   Ok {| metadata := md |}).

(** ** Notions used in the statements *)

(** What resolution reads first: the value under the first present key among
    the canonical name and the aliases, after conversion. *)
Definition first_key_value (metadata : gmap string pyvalue) : pyvalue :=
  _convert_precursor_mz
    (dict_get_opt metadata
       (get_first_common_element (dom metadata) (_default_key :: _accepted_keys))).

(** The mass token the fallback would store: [pepmass[0]] when the first
    present key yields nothing, [pepmass] is there and its first item
    converts. *)
Definition fallback_token (metadata : gmap string pyvalue) : option pyvalue :=
  if is_None (first_key_value metadata) then
    match py_index0 (dict_get metadata "pepmass") with
    | Ok token =>
        if is_None (_convert_precursor_mz token) then None else Some token
    | Raise _ => None
    end
  else None.

(** The keys resolution reads or writes. *)
Definition resolution_key (k : string) : Prop :=
  k = "precursor_mz" \/ k = "precursormz" \/ k = "precursor_mass" \/ k = "pepmass".

(** [key not in metadata] *)
Definition absent (metadata : gmap string pyvalue) (key : string) : bool :=
  match metadata !! key with
  | Some _ => false
  | None => true
  end.

(** A record on which resolution settles in one pass: either the fallback
    is not taken, or the token it stores is already a [float] and no alias
    key is in the record. *)
Definition resolution_stable (metadata : gmap string pyvalue) : bool :=
  match fallback_token metadata with
  | None => true
  | Some token =>
      isinstance_float token
      && absent metadata "precursormz" && absent metadata "precursor_mass"
  end.

(** The comparison [__eq__] makes for one item: [np.all(value == other)]
    for an array, [not (value != other)] otherwise. *)
Definition field_eq (value other : pyvalue) : result bool :=
  match value with
  | VArray xs => np_all_eq xs other
  | _ => let* differs := py_ne value other in Ok (negb differs)
  end.

(** Equality of the values of one field, as the spec has it: exact equality,
    or element-wise equality for an array-valued field. *)
Definition values_equal (value other : pyvalue) : Prop :=
  field_eq value other = Ok true.

(** [isinstance(v, np.ndarray)] *)
Definition isinstance_ndarray (v : pyvalue) : bool :=
  match v with VArray _ => true | _ => false end.

(** The payload starts with one of the characters taken for the start of a
    SMILES string. *)
Definition smiles_start (payload : string) : bool :=
  match payload with
  | String c _ => looks_like_smiles (VStr (String c EmptyString))
  | EmptyString => false
  end.

(** The canonical quoted form: a double quote, the marker [InChI=], a
    payload and a double quote, where the payload holds no space and no
    further marker, does not start like a SMILES string, and is neither
    empty nor [n/a] (the two quoted forms listed as empty entries). *)
Definition canonical_inchi (payload : string) : string :=
  dquote ++ "InChI=" ++ payload ++ dquote.

Definition canonical_payload (payload : string) : bool :=
  negb (str_mem " " payload)
  && negb (occurs "InChI=" payload)
  && negb (smiles_start payload)
  && negb (String.eqb payload "")
  && negb (String.eqb payload "n/a").

(** The keys a harmonization pass may write. *)
Definition harmonized_key (k : string) : Prop :=
  k = "ionmode" \/ k = "precursor_mz" \/ k = "precursormz"
  \/ k = "precursor_mass" \/ k = "charge".

(** The value is a NaN, or a list, tuple or array with a NaN among its
    items. *)
Definition scalar_is_nan (a : scalar) : bool :=
  match a with
  | SFloat f => PrimFloat.is_nan f
  | _ => false
  end.

Definition holds_nan (v : pyvalue) : bool :=
  match v with
  | VAtom a => scalar_is_nan a
  | VList l | VTuple l => existsb scalar_is_nan l
  | VArray xs => existsb PrimFloat.is_nan xs
  | VObj _ => false
  end.

(** A record none of whose values is an array. *)
Definition array_free (self : Metadata) : Prop :=
  forall key value,
    _data self !! key = Some value -> isinstance_ndarray value = false.

(** Every character of the string is a space. *)
Fixpoint all_spaces (s : string) : bool :=
  match s with
  | EmptyString => true
  | String c s' => Ascii.eqb c " " && all_spaces s'
  end.

(** The last character, if there is one. *)
Fixpoint last_char (s : string) : option ascii :=
  match s with
  | EmptyString => None
  | String c EmptyString => Some c
  | String _ s' => last_char s'
  end.

(** ** Properties of [_convert_precursor_mz] *)

Lemma convert_precursor_mz_cases (v : pyvalue) :
  _convert_precursor_mz v = VNone \/
  (exists f, _convert_precursor_mz v = VFloat f) \/
  (exists z, _convert_precursor_mz v = VInt z /\ v = VInt z) \/
  (exists b, _convert_precursor_mz v = VBool b /\ v = VBool b).
Proof.
  unfold _convert_precursor_mz.
  destruct v as [[ | b | z | f | s] | l | l | l | n]; cbn -[str_in]; eauto.
  - right; right; right; eauto.
  - right; right; left; eauto.
  - destruct (str_in s _accepted_missing_entries); cbn; eauto.
    destruct (float_of_str (py_strip s)); eauto.
Qed.

Lemma convert_precursor_mz_float (f : float) :
  _convert_precursor_mz (VFloat f) = VFloat f.
Proof. reflexivity. Qed.

(** A converted value that is not [None] is a [float] or an [int]. *)
Lemma convert_precursor_mz_number (v : pyvalue) :
  is_None (_convert_precursor_mz v) = false ->
  isinstance_float (_convert_precursor_mz v)
  || isinstance_int (_convert_precursor_mz v) = true.
Proof.
  destruct (convert_precursor_mz_cases v)
    as [E | [[f E] | [[z [E _]] | [b [E _]]]]]; rewrite E; cbn; congruence.
Qed.

Lemma index0_not_None (v token : pyvalue) :
  py_index0 v = Ok token -> is_None v = false.
Proof. destruct v as [[ | | | | ] | | | | ]; cbn; congruence. Qed.

Lemma resolution_unfold (metadata : gmap string pyvalue) :
  _add_precursor_mz_metadata metadata =
  if isinstance_float (first_key_value metadata)
     || isinstance_int (first_key_value metadata)
  then
    let* f := py_float (first_key_value metadata) in
    Ok (delete "precursor_mass"
          (delete "precursormz" (<["precursor_mz" := VFloat f]> metadata)))
  else
    if negb (is_None (dict_get metadata "pepmass")) then
      let* token := py_index0 (dict_get metadata "pepmass") in
      if negb (is_None (_convert_precursor_mz token))
      then Ok (<["precursor_mz" := token]> metadata)
      else Ok metadata
    else Ok metadata.
Proof. reflexivity. Qed.

Lemma first_key_value_number (metadata : gmap string pyvalue) :
  is_None (first_key_value metadata) = false ->
  isinstance_float (first_key_value metadata)
  || isinstance_int (first_key_value metadata) = true.
Proof. apply convert_precursor_mz_number. Qed.

Lemma first_key_value_none (metadata : gmap string pyvalue) :
  first_key_value metadata = VNone ->
  isinstance_float (first_key_value metadata)
  || isinstance_int (first_key_value metadata) = false.
Proof. intros ->. reflexivity. Qed.

(** C1 (amended).  Resolution reads the first present key among
    [precursor_mz], [precursormz], [precursor_mass], in that order.  When
    its value converts, that value is stored under [precursor_mz] as a
    [float] and both alias keys are removed.  The fallback is used exactly
    when that key yields nothing while [pepmass[0]] converts: the token is
    then stored as it is.  When neither yields a value the record is
    returned unchanged, so an absent [precursor_mz] stays absent. *)
Theorem precursor_mz_resolution_first_present_key
  (metadata : gmap string pyvalue) :
  (forall f,
     first_key_value metadata <> VNone ->
     py_float (first_key_value metadata) = Ok f ->
     _add_precursor_mz_metadata metadata =
       Ok (delete "precursor_mass"
             (delete "precursormz" (<["precursor_mz" := VFloat f]> metadata))))
  /\ (forall token,
        first_key_value metadata = VNone ->
        py_index0 (dict_get metadata "pepmass") = Ok token ->
        _convert_precursor_mz token <> VNone ->
        _add_precursor_mz_metadata metadata =
          Ok (<["precursor_mz" := token]> metadata))
  /\ (first_key_value metadata = VNone ->
      dict_get metadata "pepmass" = VNone \/
      (exists token, py_index0 (dict_get metadata "pepmass") = Ok token /\
                     _convert_precursor_mz token = VNone) ->
      _add_precursor_mz_metadata metadata = Ok metadata).
Proof.
  rewrite resolution_unfold. repeat split.
  - intros f Hv Hf.
    rewrite first_key_value_number, Hf; [reflexivity | ].
    destruct (first_key_value metadata) as [[ | | | | ] | | | | ];
      try reflexivity; congruence.
  - intros token Hv Hi Hc.
    rewrite (first_key_value_none _ Hv), (index0_not_None _ _ Hi), Hi.
    cbn [negb rbind].
    destruct (_convert_precursor_mz token) as [[ | | | | ] | | | | ];
      [congruence | reflexivity ..].
  - intros Hv [Hp | [token [Hi Hc]]].
    + rewrite (first_key_value_none _ Hv), Hp. reflexivity.
    + rewrite (first_key_value_none _ Hv), Hi.
      cbn [rbind]. rewrite Hc. cbn.
      destruct (negb _); reflexivity.
Qed.

(** C3.  Resolution does not tolerate every shape of [pepmass]: when the
    first present key yields nothing and [pepmass] is a number, the
    subscript [pepmass[0]] raises [TypeError]; on an empty sequence it
    raises [IndexError]. *)
Theorem scalar_pepmass_raises (metadata : gmap string pyvalue) :
  first_key_value metadata = VNone ->
  (forall a,
     dict_get metadata "pepmass" = VAtom a ->
     (exists f, a = SFloat f) \/ (exists z, a = SInt z) \/ (exists b, a = SBool b) ->
     _add_precursor_mz_metadata metadata = Raise TypeError)
  /\ (dict_get metadata "pepmass" = VList [] ->
      _add_precursor_mz_metadata metadata = Raise IndexError).
Proof.
  intros Hv. rewrite resolution_unfold, (first_key_value_none _ Hv).
  split.
  - intros a Hp [[f ->] | [[z ->] | [b ->]]]; rewrite Hp; reflexivity.
  - intros Hp. rewrite Hp. reflexivity.
Qed.

(** ** Locality of resolution *)

Lemma first_common_lookup (metadata : gmap string pyvalue) :
  dict_get_opt metadata
    (get_first_common_element (dom metadata) (_default_key :: _accepted_keys)) =
  match metadata !! "precursor_mz" with
  | Some v => v
  | None =>
      match metadata !! "precursormz" with
      | Some v => v
      | None => default VNone (metadata !! "precursor_mass")
      end
  end.
Proof.
  unfold get_first_common_element, _default_key, _accepted_keys.
  cbn [List.find].
  destruct (metadata !! "precursor_mz") as [v0 | ] eqn:E0.
  { rewrite bool_decide_eq_true_2 by (apply elem_of_dom; eauto).
    cbn. unfold dict_get. rewrite E0. reflexivity. }
  rewrite bool_decide_eq_false_2 by (rewrite elem_of_dom, E0; intros [? ?]; done).
  destruct (metadata !! "precursormz") as [v1 | ] eqn:E1.
  { rewrite bool_decide_eq_true_2 by (apply elem_of_dom; eauto).
    cbn. unfold dict_get. rewrite E1. reflexivity. }
  rewrite bool_decide_eq_false_2 by (rewrite elem_of_dom, E1; intros [? ?]; done).
  destruct (metadata !! "precursor_mass") as [v2 | ] eqn:E2.
  { rewrite bool_decide_eq_true_2 by (apply elem_of_dom; eauto).
    cbn. unfold dict_get. rewrite E2. reflexivity. }
  rewrite bool_decide_eq_false_2 by (rewrite elem_of_dom, E2; intros [? ?]; done).
  reflexivity.
Qed.

Lemma first_key_value_insert (metadata : gmap string pyvalue) k v :
  ~ resolution_key k ->
  first_key_value (<[k := v]> metadata) = first_key_value metadata.
Proof.
  intros Hk. unfold first_key_value. rewrite !first_common_lookup.
  rewrite !lookup_insert_ne; [reflexivity | ..];
    intros ->; apply Hk; unfold resolution_key; auto.
Qed.

Lemma dict_get_insert_ne (metadata : gmap string pyvalue) k k' v :
  k <> k' -> dict_get (<[k := v]> metadata) k' = dict_get metadata k'.
Proof. intros Hk. unfold dict_get. rewrite lookup_insert_ne; done. Qed.

Lemma dict_get_insert_eq (metadata : gmap string pyvalue) k v :
  dict_get (<[k := v]> metadata) k = v.
Proof. unfold dict_get. rewrite lookup_insert_eq. reflexivity. Qed.

(** Writing a key that resolution does not look at commutes with it. *)
Lemma resolution_insert (metadata : gmap string pyvalue) k v :
  ~ resolution_key k ->
  _add_precursor_mz_metadata (<[k := v]> metadata) =
  let* m := _add_precursor_mz_metadata metadata in Ok (<[k := v]> m).
Proof.
  intros Hk.
  assert (k <> "precursor_mz" /\ k <> "precursormz" /\ k <> "precursor_mass"
          /\ k <> "pepmass") as (H0 & H1 & H2 & H3).
  { unfold resolution_key in Hk. repeat split; intros ->; apply Hk; auto. }
  rewrite !resolution_unfold, first_key_value_insert by done.
  rewrite dict_get_insert_ne by done.
  destruct (isinstance_float _ || isinstance_int _).
  - destruct (py_float (first_key_value metadata)) as [f | e]; cbn; [ | done].
    f_equal.
    rewrite (insert_insert_ne metadata "precursor_mz" k) by done.
    rewrite !delete_insert_ne by done. reflexivity.
  - destruct (negb (is_None (dict_get metadata "pepmass"))); [ | done].
    destruct (py_index0 (dict_get metadata "pepmass")) as [token | e]; cbn;
      [ | done].
    destruct (negb (is_None (_convert_precursor_mz token))); cbn; [ | done].
    f_equal. apply insert_insert_ne. done.
Qed.

(** Resolution leaves every other key as it was. *)
Lemma resolution_other_keys (metadata m : gmap string pyvalue) k :
  _add_precursor_mz_metadata metadata = Ok m ->
  k <> "precursor_mz" -> k <> "precursormz" -> k <> "precursor_mass" ->
  m !! k = metadata !! k.
Proof.
  rewrite resolution_unfold. intros H H0 H1 H2.
  destruct (isinstance_float _ || isinstance_int _).
  - destruct (py_float (first_key_value metadata)) as [f | e]; cbn in H;
      [ | discriminate].
    injection H as <-.
    rewrite !lookup_delete_ne, lookup_insert_ne by done. reflexivity.
  - destruct (negb (is_None (dict_get metadata "pepmass")));
      [ | injection H as <-; reflexivity].
    destruct (py_index0 (dict_get metadata "pepmass")) as [token | e];
      cbn in H; [ | discriminate].
    destruct (negb (is_None (_convert_precursor_mz token)));
      injection H as <-; [ | reflexivity].
    rewrite lookup_insert_ne by done. reflexivity.
Qed.

(** ** The statements on [ionmode] *)

Lemma lower_ascii_idemp (c : ascii) : lower_ascii (lower_ascii c) = lower_ascii c.
Proof. destruct c as [[] [] [] [] [] [] [] []]; reflexivity. Qed.

Lemma py_lower_idemp (s : string) : py_lower (py_lower s) = py_lower s.
Proof.
  induction s as [ | c s IH]; cbn; [reflexivity | ].
  rewrite lower_ascii_idemp, IH. reflexivity.
Qed.

Lemma with_data_id (self : Metadata) : with_data self (_data self) = self.
Proof. destruct self. reflexivity. Qed.

Lemma get_setitem_eq (self : Metadata) k v : get (setitem_data self k v) k = v.
Proof. unfold get, setitem_data. cbn. apply dict_get_insert_eq. Qed.

Lemma get_setitem_ne (self : Metadata) k k' v :
  k <> k' -> get (setitem_data self k v) k' = get self k'.
Proof. intros Hk. unfold get, setitem_data. cbn. apply dict_get_insert_ne, Hk. Qed.

Lemma setitem_same (self : Metadata) k v :
  _data self !! k = Some v -> setitem_data self k v = self.
Proof.
  intros H. unfold setitem_data. rewrite insert_id by done. apply with_data_id.
Qed.

Lemma harmonize_ionmode_cases (self r : Metadata) :
  harmonize_ionmode self = Ok r ->
  (exists s, get self "ionmode" = VStr s /\
             r = setitem_data self "ionmode" (VStr (py_lower s)))
  \/ (get self "ionmode" = VNone /\ r = setitem_data self "ionmode" (VStr "n/a")).
Proof.
  unfold harmonize_ionmode.
  destruct (get self "ionmode") as [[ | b | z | f | s] | l | l | l | n] eqn:E;
    cbn; try discriminate.
  - rewrite E. cbn. intros [= <-]. right. done.
  - rewrite get_setitem_eq. cbn. intros [= <-]. left. eauto.
Qed.

(** A record whose [ionmode] is a lower-case string is left as it is. *)
Lemma harmonize_ionmode_fixed (self : Metadata) t :
  _data self !! "ionmode" = Some (VStr t) -> py_lower t = t ->
  harmonize_ionmode self = Ok self.
Proof.
  intros H Ht. unfold harmonize_ionmode.
  assert (get self "ionmode" = VStr t) as E by (unfold get, dict_get; rewrite H; done).
  rewrite E. cbn. rewrite Ht, (setitem_same _ _ _ H), E. reflexivity.
Qed.

Lemma harmonize_ionmode_sets (self r : Metadata) :
  harmonize_ionmode self = Ok r ->
  exists t, py_lower t = t /\ r = setitem_data self "ionmode" (VStr t).
Proof.
  intros H. destruct (harmonize_ionmode_cases _ _ H) as [[s [_ ->]] | [_ ->]].
  - exists (py_lower s). split; [apply py_lower_idemp | reflexivity].
  - exists "n/a". split; reflexivity.
Qed.

(** ** The statements on [charge] *)

Lemma harmonize_charge_cases (self : Metadata) :
  (harmonize_charge self = self /\
   (isinstance_int (get self "charge") = true \/
    _convert_charge_to_int (get self "charge") = None))
  \/ (exists z, isinstance_int (get self "charge") = false /\
                _convert_charge_to_int (get self "charge") = Some z /\
                harmonize_charge self = setitem_data self "charge" (VInt z)).
Proof.
  unfold harmonize_charge.
  destruct (isinstance_int (get self "charge")); cbn; [left; eauto | ].
  destruct (_convert_charge_to_int (get self "charge")) as [z | ]; cbn.
  - right. eauto.
  - left. eauto.
Qed.

Lemma harmonize_charge_other_keys (self : Metadata) k :
  k <> "charge" ->
  _data (harmonize_charge self) !! k = _data self !! k.
Proof.
  intros Hk.
  destruct (harmonize_charge_cases self) as [[-> _] | [z (_ & _ & ->)]];
    [reflexivity | ].
  cbn. rewrite lookup_insert_ne by done. reflexivity.
Qed.

Lemma harmonize_charge_flag (self : Metadata) :
  harmonize_defaults (harmonize_charge self) = harmonize_defaults self.
Proof.
  destruct (harmonize_charge_cases self) as [[-> _] | [z (_ & _ & ->)]];
    reflexivity.
Qed.

(** ** One pass *)

Lemma harmonize_metadata_stages (self s1 : Metadata) :
  harmonize_metadata self = Ok s1 ->
  exists r d,
    harmonize_ionmode self = Ok r /\
    _add_precursor_mz_metadata (_data r) = Ok d /\
    s1 = harmonize_charge (with_data r d).
Proof.
  unfold harmonize_metadata, _interpret_pepmass_metadata. cbn [rbind].
  rewrite with_data_id.
  destruct (harmonize_ionmode self) as [r | e]; cbn; [ | discriminate].
  destruct (_add_precursor_mz_metadata (_data r)) as [d | e] eqn:Ea; cbn;
    [ | discriminate].
  intros [= <-]. eauto.
Qed.

(** C5.  After a harmonization pass the key [ionmode] is present: a string
    value has been replaced by its lower-case form, an absent or null value
    by ["n/a"]; normalising the result again leaves it as it is. *)
Theorem ionmode_always_present (self s1 : Metadata) :
  harmonize_metadata self = Ok s1 ->
  is_Some (_data s1 !! "ionmode")
  /\ (forall s, get self "ionmode" = VStr s ->
                _data s1 !! "ionmode" = Some (VStr (py_lower s)))
  /\ (get self "ionmode" = VNone -> _data s1 !! "ionmode" = Some (VStr "n/a"))
  /\ harmonize_ionmode s1 = Ok s1
  /\ (forall r, harmonize_ionmode self = Ok r -> harmonize_ionmode r = Ok r).
Proof.
  intros H.
  destruct (harmonize_metadata_stages _ _ H) as (r & d & Hi & Hr & ->).
  assert (forall t, r = setitem_data self "ionmode" (VStr t) ->
            _data (harmonize_charge (with_data r d)) !! "ionmode"
            = Some (VStr t)) as Hlook.
  { intros t ->. rewrite harmonize_charge_other_keys by done. cbn.
    rewrite (resolution_other_keys _ _ "ionmode" Hr) by done.
    cbn. apply lookup_insert_eq. }
  assert (forall r', harmonize_ionmode self = Ok r' -> harmonize_ionmode r' = Ok r')
    as Hidem.
  { intros r' Hr'. destruct (harmonize_ionmode_sets _ _ Hr') as (t & Ht & ->).
    apply (harmonize_ionmode_fixed _ t); [ | done]. cbn. apply lookup_insert_eq. }
  destruct (harmonize_ionmode_sets _ _ Hi) as (t & Ht & Er).
  repeat split.
  - rewrite (Hlook t Er). eauto.
  - intros s Es.
    destruct (harmonize_ionmode_cases _ _ Hi) as [[s' [Es' E]] | [Es' E]];
      [ | congruence].
    rewrite Es in Es'. injection Es' as <-. apply Hlook, E.
  - intros Es.
    destruct (harmonize_ionmode_cases _ _ Hi) as [[s' [Es' E]] | [Es' E]];
      [congruence | ].
    apply Hlook, E.
  - apply (harmonize_ionmode_fixed _ t); [apply Hlook, Er | done].
  - done.
Qed.

(** The charge read back after the statements on [charge]. *)
Lemma get_harmonize_charge (self : Metadata) :
  get (harmonize_charge self) "charge" =
  if isinstance_int (get self "charge") then get self "charge"
  else match _convert_charge_to_int (get self "charge") with
       | Some z => VInt z
       | None => get self "charge"
       end.
Proof.
  destruct (harmonize_charge_cases self)
    as [[-> [Hi | Hc]] | [z (Hi & Hc & ->)]].
  - rewrite Hi. reflexivity.
  - rewrite Hc. destruct (isinstance_int (get self "charge")); reflexivity.
  - rewrite get_setitem_eq, Hi, Hc. reflexivity.
Qed.

(** The earlier stages of a pass do not touch [charge]. *)
Lemma pass_charge (self s1 : Metadata) :
  harmonize_metadata self = Ok s1 ->
  get s1 "charge" = get (harmonize_charge self) "charge".
Proof.
  intros H.
  destruct (harmonize_metadata_stages _ _ H) as (r & d & Hi & Hr & ->).
  destruct (harmonize_ionmode_sets _ _ Hi) as (t & _ & ->).
  assert (get (with_data (setitem_data self "ionmode" (VStr t)) d) "charge"
          = get self "charge") as Eg.
  { unfold get, dict_get. cbn.
    rewrite (resolution_other_keys _ _ "charge" Hr) by done.
    cbn. rewrite lookup_insert_ne by done. reflexivity. }
  rewrite !get_harmonize_charge, Eg. reflexivity.
Qed.

(** C7.  A constructor argument that is neither a mapping nor [None] makes
    [__init__] raise [ValueError] before any record exists, whatever
    [harmonize_defaults] is.  For [None] the store is created empty, for a
    mapping it is created over that mapping; this is the record when
    [harmonize_defaults] is off, and the record the harmonization pass
    starts from when it is on. *)
Theorem constructor_rejects_non_mapping :
  (forall v h,
     v <> VNone ->
     __init__ (ArgValue v) h =
       Raise (ValueError
         "Unexpected data type for metadata (should be dictionary, or None)."))
  /\ init_data (ArgValue VNone) = Ok ∅
  /\ (forall m, init_data (ArgMapping m) = Ok m)
  /\ __init__ (ArgValue VNone) false = Ok (mkMetadata ∅ false)
  /\ (forall m, __init__ (ArgMapping m) false = Ok (mkMetadata m false))
  /\ __init__ (ArgValue VNone) true = harmonize_metadata (mkMetadata ∅ true)
  /\ (forall m,
        __init__ (ArgMapping m) true = harmonize_metadata (mkMetadata m true)).
Proof.
  repeat split.
  intros v h Hv. unfold __init__, init_data.
  destruct v as [[ | | | | ] | | | | ]; try reflexivity. congruence.
Qed.

(** ** A second pass *)

Lemma first_key_value_stored (metadata : gmap string pyvalue) v :
  metadata !! "precursor_mz" = Some v ->
  first_key_value metadata = _convert_precursor_mz v.
Proof.
  intros H. unfold first_key_value. rewrite first_common_lookup, H. reflexivity.
Qed.

Lemma fallback_token_insert (metadata : gmap string pyvalue) k v :
  ~ resolution_key k ->
  fallback_token (<[k := v]> metadata) = fallback_token metadata.
Proof.
  intros Hk. unfold fallback_token.
  rewrite first_key_value_insert by done.
  rewrite dict_get_insert_ne; [reflexivity | ].
  intros ->. apply Hk. unfold resolution_key. auto.
Qed.

Lemma resolution_stable_insert (metadata : gmap string pyvalue) k v :
  ~ resolution_key k ->
  resolution_stable (<[k := v]> metadata) = resolution_stable metadata.
Proof.
  intros Hk. unfold resolution_stable, absent.
  rewrite fallback_token_insert by done.
  rewrite !lookup_insert_ne; [reflexivity | ..];
    intros ->; apply Hk; unfold resolution_key; auto.
Qed.

(** A record that holds a [float] under [precursor_mz] and no alias key is
    returned as it is. *)
Lemma resolution_settled (d : gmap string pyvalue) f :
  d !! "precursor_mz" = Some (VFloat f) ->
  d !! "precursormz" = None -> d !! "precursor_mass" = None ->
  _add_precursor_mz_metadata d = Ok d.
Proof.
  intros H0 H1 H2.
  rewrite resolution_unfold, (first_key_value_stored _ _ H0). cbn.
  rewrite insert_id by done.
  rewrite (delete_id d "precursormz") by done.
  rewrite delete_id by done. reflexivity.
Qed.

(** The outcome of resolution on the record resolution has produced. *)
Lemma resolution_twice (m d : gmap string pyvalue) :
  _add_precursor_mz_metadata m = Ok d ->
  (resolution_stable m = true -> _add_precursor_mz_metadata d = Ok d)
  /\ (resolution_stable m = false ->
      forall d', _add_precursor_mz_metadata d = Ok d' ->
        d' !! "precursor_mz" <> d !! "precursor_mz"
        \/ d' !! "precursormz" <> d !! "precursormz"
        \/ d' !! "precursor_mass" <> d !! "precursor_mass").
Proof.
  intros H. pose proof H as H'. rewrite resolution_unfold in H'.
  unfold resolution_stable, fallback_token.
  destruct (is_None (first_key_value m)) eqn:En.
  - (* the first present key yields nothing *)
    assert (first_key_value m = VNone) as Ev.
    { destruct (first_key_value m) as [[ | | | | ] | | | | ]; cbn in En;
        congruence. }
    rewrite (first_key_value_none _ Ev) in H'.
    destruct (is_None (dict_get m "pepmass")) eqn:Ep; cbn [negb] in H'.
    { injection H' as <-.
      assert (dict_get m "pepmass" = VNone) as ->.
      { destruct (dict_get m "pepmass") as [[ | | | | ] | | | | ]; cbn in Ep;
          congruence. }
      cbn. split; [intros _; exact H | discriminate]. }
    destruct (py_index0 (dict_get m "pepmass")) as [token | e]; cbn in H';
      [ | discriminate].
    destruct (is_None (_convert_precursor_mz token)) eqn:Ec; cbn [negb] in H'.
    { injection H' as <-. split; [intros _; exact H | discriminate]. }
    injection H' as <-.
    assert ((<["precursor_mz" := token]> m) !! "precursor_mz" = Some token)
      as Hl by apply lookup_insert_eq.
    split.
    + intros Hs. apply andb_prop in Hs as [Hs H2]. apply andb_prop in Hs as [Hf H1].
      destruct token as [[ | | | f | ] | | | | ]; cbn in Hf; try discriminate.
      unfold absent in H1, H2.
      apply (resolution_settled _ f); [done | | ];
        rewrite lookup_insert_ne by done.
      * destruct (m !! "precursormz"); [discriminate | reflexivity].
      * destruct (m !! "precursor_mass"); [discriminate | reflexivity].
    + intros Hs d' Hd'.
      rewrite resolution_unfold, (first_key_value_stored _ _ Hl) in Hd'.
      rewrite (convert_precursor_mz_number token Ec) in Hd'.
      destruct (py_float (_convert_precursor_mz token)) as [f | e]; cbn in Hd';
        [ | discriminate].
      injection Hd' as <-.
      rewrite Hl.
      rewrite (lookup_insert_ne m "precursor_mz" "precursormz") by done.
      rewrite (lookup_insert_ne m "precursor_mz" "precursor_mass") by done.
      rewrite (lookup_delete_eq _ "precursor_mass").
      rewrite (lookup_delete_ne _ "precursor_mass" "precursormz") by done.
      rewrite (lookup_delete_eq _ "precursormz").
      rewrite !lookup_delete_ne, lookup_insert_eq by done.
      unfold absent in Hs.
      destruct (isinstance_float token) eqn:Ef; cbn in Hs.
      * destruct (m !! "precursormz") eqn:E1; [right; left; done | ].
        destruct (m !! "precursor_mass") eqn:E2; [right; right; done | ].
        discriminate.
      * left. intros [= <-]. discriminate.
  - (* the first present key yields a number *)
    rewrite (first_key_value_number _ En) in H'.
    destruct (py_float (first_key_value m)) as [f | e]; cbn in H';
      [ | discriminate].
    injection H' as <-.
    split; [intros _ | discriminate].
    apply (resolution_settled _ f).
    + rewrite !lookup_delete_ne, lookup_insert_eq by done. reflexivity.
    + rewrite lookup_delete_ne, lookup_delete_eq by done. reflexivity.
    + apply lookup_delete_eq.
Qed.

Lemma charge_not_resolution_key : ~ resolution_key "charge".
Proof. unfold resolution_key. intros [H | [H | [H | H]]]; discriminate. Qed.

Lemma ionmode_not_resolution_key : ~ resolution_key "ionmode".
Proof. unfold resolution_key. intros [H | [H | [H | H]]]; discriminate. Qed.

(** After a pass [ionmode] holds a lower-case string. *)
Lemma pass_ionmode (self s1 : Metadata) :
  harmonize_metadata self = Ok s1 ->
  exists t, py_lower t = t /\ _data s1 !! "ionmode" = Some (VStr t).
Proof.
  intros H.
  destruct (harmonize_metadata_stages _ _ H) as (r & d & Hi & Hr & ->).
  destruct (harmonize_ionmode_sets _ _ Hi) as (t & Ht & ->).
  exists t. split; [done | ].
  rewrite harmonize_charge_other_keys by done. cbn.
  rewrite (resolution_other_keys _ _ "ionmode" Hr) by done.
  cbn. apply lookup_insert_eq.
Qed.

(** The second pass runs resolution again on what the first one resolved,
    and nothing else. *)
Lemma second_pass (self r : Metadata) (d : gmap string pyvalue) :
  harmonize_ionmode self = Ok r ->
  _add_precursor_mz_metadata (_data r) = Ok d ->
  harmonize_metadata (harmonize_charge (with_data r d)) =
  let* d' := _add_precursor_mz_metadata d in
  Ok (harmonize_charge (with_data r d')).
Proof.
  intros Hi Hr.
  assert (harmonize_metadata self = Ok (harmonize_charge (with_data r d))) as H.
  { unfold harmonize_metadata, _interpret_pepmass_metadata. cbn [rbind].
    rewrite with_data_id, Hi. cbn [rbind]. rewrite Hr. reflexivity. }
  destruct (pass_ionmode _ _ H) as (t & Ht & Hl).
  unfold harmonize_metadata at 1. unfold _interpret_pepmass_metadata.
  cbn [rbind]. rewrite with_data_id.
  rewrite (harmonize_ionmode_fixed _ t Hl Ht). cbn [rbind].
  destruct (harmonize_charge_cases (with_data r d))
    as [[E _] | [z (Hint & Hconv & E)]]; rewrite E.
  - cbn [_data with_data].
    destruct (_add_precursor_mz_metadata d) as [d' | e]; reflexivity.
  - cbn [_data with_data setitem_data].
    rewrite resolution_insert by apply charge_not_resolution_key.
    destruct (_add_precursor_mz_metadata d) as [d' | e] eqn:Ed; cbn [rbind];
      [ | reflexivity].
    f_equal.
    assert (get (with_data r d') "charge" = get (with_data r d) "charge") as Eg.
    { unfold get, dict_get. cbn.
      rewrite (resolution_other_keys _ _ "charge" Ed) by done. reflexivity. }
    unfold harmonize_charge at 2. rewrite Eg, Hint, Hconv. cbn.
    unfold harmonize_charge, get. cbn.
    rewrite dict_get_insert_eq. reflexivity.
Qed.




(** ** Equality of records *)

Lemma eq_items_cons key value rest (other_metadata : Metadata) :
  eq_items ((key, value) :: rest) other_metadata =
  let* same := field_eq value (get other_metadata key) in
  if same then eq_items rest other_metadata else Ok false.
Proof.
  cbn [eq_items]. unfold field_eq.
  destruct value as [a | l | l | xs | n];
    try (destruct (py_ne _ (get other_metadata key)) as [[ | ] | e]; reflexivity).
  destruct (np_all_eq xs (get other_metadata key)) as [[ | ] | e]; reflexivity.
Qed.

Lemma eq_items_true its (other_metadata : Metadata) :
  eq_items its other_metadata = Ok true <->
  Forall (fun kv => values_equal kv.2 (get other_metadata kv.1)) its.
Proof.
  induction its as [ | [key value] rest IH].
  - cbn. split; [constructor | reflexivity].
  - rewrite eq_items_cons, Forall_cons. unfold values_equal at 1. cbn [fst snd].
    destruct (field_eq value (get other_metadata key)) as [[ | ] | e];
      cbn [rbind].
    + rewrite IH. split; [intros H; split; [reflexivity | exact H] | ].
      intros [_ H]. exact H.
    + split; [discriminate | intros [H _]; discriminate].
    + split; [discriminate | intros [H _]; discriminate].
Qed.

(** When every comparison returns and one of them finds a difference, the
    loop answers [False]. *)
Lemma eq_items_false its (other_metadata : Metadata) :
  Forall (fun kv => exists b, field_eq kv.2 (get other_metadata kv.1) = Ok b) its ->
  Exists (fun kv => field_eq kv.2 (get other_metadata kv.1) = Ok false) its ->
  eq_items its other_metadata = Ok false.
Proof.
  induction its as [ | [key value] rest IH]; intros Hall Hex.
  - inversion Hex.
  - rewrite eq_items_cons.
    apply Forall_cons in Hall as [[b Hb] Hall]. cbn [fst snd] in Hb.
    rewrite Hb. cbn [rbind]. destruct b; [ | reflexivity].
    apply IH; [done | ].
    apply Exists_cons in Hex as [Hex | Hex]; [ | done].
    cbn [fst snd] in Hex. congruence.
Qed.

Lemma floats_eqb_Forall2 (xs ys : list float) :
  floats_eqb xs ys = true <->
  Forall2 (fun x y => PrimFloat.eqb x y = true) xs ys.
Proof.
  revert ys. induction xs as [ | x xs IH]; intros [ | y ys]; cbn.
  - split; [constructor | reflexivity].
  - split; [discriminate | inversion 1].
  - split; [discriminate | inversion 1].
  - rewrite andb_true_iff, IH. split.
    + intros [? ?]. constructor; done.
    + inversion 1; subst. done.
Qed.

Lemma floats_eqb_lookup (xs ys : list float) i x y :
  floats_eqb xs ys = true -> xs !! i = Some x -> ys !! i = Some y ->
  PrimFloat.eqb x y = true.
Proof.
  rewrite floats_eqb_Forall2. intros H Hx Hy.
  exact (Forall2_lookup_lr _ _ _ _ _ _ H Hx Hy).
Qed.

Lemma field_eq_arrays (xs ys : list float) :
  length xs = length ys ->
  field_eq (VArray xs) (VArray ys) = Ok (floats_eqb xs ys).
Proof.
  intros H. cbn. rewrite H, Nat.eqb_refl. reflexivity.
Qed.

(** Comparing a value that is not an array with itself, or an array with
    itself, returns. *)
Lemma field_eq_self_returns (v : pyvalue) : exists b, field_eq v v = Ok b.
Proof.
  destruct v as [a | l | l | xs | n]; cbn; eauto.
  rewrite Nat.eqb_refl. eauto.
Qed.

(** C4.  [__eq__] answers [True] exactly when the two records have the same
    keys and, for each key, equal values: for values that are not arrays
    that is [==], for two arrays of one length it is equality of every pair
    of elements.  Two records whose arrays under one key differ in an
    element are not equal, and a record compared with a copy in which one
    element of one array has been changed gives [False]. *)
Theorem metadata_equality (self other_metadata : Metadata) :
  (__eq__ self other_metadata = Ok true <->
   keys self = keys other_metadata /\
   forall key value,
     _data self !! key = Some value ->
     values_equal value (get other_metadata key))
  /\ (forall value other,
        isinstance_ndarray value = false -> isinstance_ndarray other = false ->
        (values_equal value other <-> py_eqb value other = true))
  /\ (forall xs ys,
        length xs = length ys ->
        (values_equal (VArray xs) (VArray ys) <->
         Forall2 (fun x y => PrimFloat.eqb x y = true) xs ys))
  /\ (forall key xs ys i x y,
        _data self !! key = Some (VArray xs) ->
        get other_metadata key = VArray ys ->
        length xs = length ys ->
        xs !! i = Some x -> ys !! i = Some y -> PrimFloat.eqb x y = false ->
        __eq__ self other_metadata <> Ok true)
  /\ (forall key xs i x y,
        _data self !! key = Some (VArray xs) ->
        xs !! i = Some x -> PrimFloat.eqb x y = false ->
        __eq__ self (setitem_data self key (VArray (<[i := y]> xs))) = Ok false).
Proof.
  assert (forall o : Metadata,
            __eq__ self o = Ok true <->
            keys self = keys o /\
            forall key value,
              _data self !! key = Some value -> values_equal value (get o key))
    as Hiff.
  { intros o. unfold __eq__, items.
    destruct (bool_decide (keys self = keys o)) eqn:Ek; cbn [negb].
    - apply bool_decide_eq_true_1 in Ek. rewrite eq_items_true, Forall_forall.
      split.
      + intros Hall. split; [done | ]. intros key value Hl.
        apply (Hall (key, value)), elem_of_map_to_list, Hl.
      + intros [_ Hall] [key value] Hin. apply Hall, elem_of_map_to_list, Hin.
    - apply bool_decide_eq_false_1 in Ek.
      split; [discriminate | intros [Hk _]; contradiction]. }
  assert (forall xs ys,
            length xs = length ys ->
            values_equal (VArray xs) (VArray ys) <->
            Forall2 (fun x y => PrimFloat.eqb x y = true) xs ys) as Harr.
  { intros xs ys Hlen. unfold values_equal.
    rewrite (field_eq_arrays _ _ Hlen), <- floats_eqb_Forall2.
    split; [intros [= ->]; reflexivity | intros ->; reflexivity]. }
  split; [apply Hiff | ]. split; [ | split; [exact Harr | split]].
  - intros value other Hv Ho. unfold values_equal, field_eq, py_ne.
    destruct value as [a | l | l | xs | n]; try discriminate;
      destruct other as [b | l' | l' | ys | m]; try discriminate; cbn [rbind];
      (destruct (py_eqb _ _); cbn; split; congruence).
  - intros key xs ys i x y Hl Hg Hlen Hx Hy Hne Heq.
    apply Hiff in Heq as [_ Hall]. specialize (Hall _ _ Hl).
    rewrite Hg in Hall. apply (Harr _ _ Hlen) in Hall.
    pose proof (Forall2_lookup_lr _ _ _ _ _ _ Hall Hx Hy) as E. cbn in E.
    congruence.
  - intros key xs i x y Hl Hx Hne.
    set (other := setitem_data self key (VArray (<[i := y]> xs))).
    assert (get other key = VArray (<[i := y]> xs)) as Hk
      by apply get_setitem_eq.
    assert (field_eq (VArray xs) (get other key) = Ok false) as Hdiff.
    { rewrite Hk, field_eq_arrays by (rewrite length_insert; reflexivity).
      f_equal. destruct (floats_eqb xs (<[i := y]> xs)) eqn:E; [ | reflexivity].
      assert (<[i := y]> xs !! i = Some y) as Hy.
      { apply list_lookup_insert_eq. apply lookup_lt_Some in Hx. done. }
      rewrite (floats_eqb_lookup _ _ _ _ _ E Hx Hy) in Hne. discriminate. }
    unfold __eq__, items.
    rewrite bool_decide_eq_true_2.
    + cbn [negb]. apply eq_items_false.
      * apply Forall_forall. intros [k v] Hin. cbn [fst snd].
        apply elem_of_map_to_list in Hin.
        destruct (decide (k = key)) as [-> | Hkk].
        { rewrite Hl in Hin. injection Hin as <-. eauto. }
        unfold other. rewrite get_setitem_ne by done.
        unfold get, dict_get. rewrite Hin. cbn. apply field_eq_self_returns.
      * apply Exists_exists. exists (key, VArray xs). split; [ | exact Hdiff].
        apply elem_of_map_to_list, Hl.
    + unfold keys, other. cbn. symmetry. apply dom_insert_lookup_L. eauto.
Qed.

(** ** Strings *)

Lemma append_nil_r (s : string) : (s ++ "")%string = s.
Proof. induction s as [ | c s IH]; cbn; [reflexivity | rewrite IH; reflexivity]. Qed.

Lemma append_assoc (s t u : string) :
  ((s ++ t) ++ u)%string = (s ++ (t ++ u))%string.
Proof. induction s as [ | c s IH]; cbn; [reflexivity | rewrite IH; reflexivity]. Qed.

Lemma append_last_inj (s t : string) c :
  (s ++ String c "")%string = (t ++ String c "")%string -> s = t.
Proof.
  revert t. induction s as [ | a s IH]; intros [ | b t]; cbn; intros H.
  - reflexivity.
  - injection H as _ H. destruct t; discriminate.
  - injection H as _ H. destruct s; discriminate.
  - injection H as -> H. f_equal. apply IH, H.
Qed.

Lemma py_replace_absent old new (s : string) :
  str_mem old s = false -> py_replace old new s = s.
Proof.
  induction s as [ | c s IH]; cbn; [reflexivity | ].
  intros H. apply orb_false_elim in H as [Hc Hs].
  rewrite Hc, IH by done. reflexivity.
Qed.

Lemma py_rstrip_last (s : string) c :
  is_space c = false ->
  py_rstrip (s ++ String c "") = (s ++ String c "")%string.
Proof.
  intros Hc. induction s as [ | a s IH]; cbn.
  - rewrite Hc. reflexivity.
  - rewrite IH. destruct s; reflexivity.
Qed.

Lemma substring_last (s : string) c :
  String.substring (String.length s) 1 (s ++ String c "") = String c "".
Proof. induction s as [ | a s IH]; cbn; [reflexivity | exact IH]. Qed.

Lemma length_append_last (s : string) c :
  String.length (s ++ String c "") = S (String.length s).
Proof. induction s as [ | a s IH]; cbn; [reflexivity | rewrite IH; reflexivity]. Qed.

Lemma py_endswith_last (s : string) c :
  py_endswith (String c "") (s ++ String c "") = true.
Proof.
  unfold py_endswith. rewrite length_append_last. cbn [String.length].
  replace (S (String.length s) - 1)%nat with (String.length s) by lia.
  rewrite substring_last, String.eqb_refl. reflexivity.
Qed.

Lemma py_endswith_dquote (s : string) : py_endswith dquote (s ++ dquote) = true.
Proof. apply py_endswith_last. Qed.

(** A separator that holds no double quote starts [t ++ dquote] exactly when
    it starts [t]. *)
Lemma prefix_append_dquote (sep t : string) :
  str_mem "034" sep = false ->
  String.prefix sep (t ++ dquote) = String.prefix sep t.
Proof.
  revert t. induction sep as [ | a sep IH]; intros t H; [destruct t; reflexivity | ].
  cbn in H. apply orb_false_elim in H as [Ha Hs].
  destruct t as [ | c t]; cbn.
  - destruct (ascii_dec a "034") as [-> | _]; [ | reflexivity].
    discriminate.
  - destruct (ascii_dec a c); [apply IH, Hs | reflexivity].
Qed.

Lemma occurs_append_dquote (sep t : string) :
  str_mem "034" sep = false ->
  occurs sep (t ++ dquote) = occurs sep t.
Proof.
  intros H. induction t as [ | c t IH].
  - cbn [append occurs dquote].
    change (String "034" "") with ("" ++ dquote)%string.
    rewrite prefix_append_dquote by done.
    destruct (String.prefix sep ""); reflexivity.
  - change (String c t ++ dquote)%string with (String c (t ++ dquote)).
    cbn [occurs].
    change (String c (t ++ dquote)) with (String c t ++ dquote)%string.
    rewrite prefix_append_dquote, IH by done. reflexivity.
Qed.

(** Without an occurrence of the separator there is one piece. *)
Lemma split_go_no_occurrence (sep cur s : string) :
  occurs sep s = false -> split_go sep 0 cur s = [(cur ++ s)%string].
Proof.
  revert cur. induction s as [ | c s IH]; intros cur H; cbn.
  - rewrite append_nil_r. reflexivity.
  - cbn in H. apply orb_false_elim in H as [Hp Hs].
    cbn in Hp. rewrite Hp, IH by done.
    rewrite append_assoc. reflexivity.
Qed.

Lemma prefix_nil (s : string) : String.prefix "" s = true.
Proof. destruct s; reflexivity. Qed.

Lemma prefix_append (sep rest : string) : String.prefix sep (sep ++ rest) = true.
Proof.
  induction sep as [ | a sep IH]; [apply prefix_nil | ].
  cbn. destruct (ascii_dec a a); [exact IH | congruence].
Qed.

Lemma split_go_cons (sep cur : string) c (s : string) :
  split_go sep 0 cur (String c s) =
  if String.prefix sep (String c s)
  then cur :: split_go sep (String.length sep - 1) "" s
  else split_go sep 0 (cur ++ String c "") s.
Proof. reflexivity. Qed.

Lemma split_go_skip (sep t cur rest : string) :
  split_go sep (String.length t) cur (t ++ rest) = split_go sep 0 cur rest.
Proof.
  induction t as [ | c t IH]; [destruct rest; reflexivity | exact IH].
Qed.

(** At an occurrence of the separator the current piece ends. *)
Lemma split_go_at_separator a (sep cur rest : string) :
  split_go (String a sep) 0 cur (String a sep ++ rest) =
  cur :: split_go (String a sep) 0 "" rest.
Proof.
  change (String a sep ++ rest)%string with (String a (sep ++ rest)).
  rewrite split_go_cons.
  change (String a (sep ++ rest)) with (String a sep ++ rest)%string.
  rewrite prefix_append. cbn [String.length].
  replace (S (String.length sep) - 1)%nat with (String.length sep) by lia.
  rewrite split_go_skip. reflexivity.
Qed.

Lemma split_last_canonical (payload : string) :
  occurs "InChI=" payload = false ->
  split_last "InChI=" (canonical_inchi payload) = (payload ++ dquote)%string.
Proof.
  intros H. unfold split_last, py_split.
  change (canonical_inchi payload)
    with (String "034" ("InChI=" ++ (payload ++ dquote))).
  rewrite split_go_cons.
  change (String.prefix "InChI=" (String "034" ("InChI=" ++ (payload ++ dquote))))
    with false.
  cbv iota.
  rewrite split_go_at_separator, split_go_no_occurrence.
  - reflexivity.
  - rewrite occurs_append_dquote; done.
Qed.

Lemma py_strip_canonical (payload : string) :
  py_strip (canonical_inchi payload) = canonical_inchi payload.
Proof.
  unfold py_strip, canonical_inchi, dquote.
  change (String "034" "" ++ "InChI=" ++ payload ++ String "034" "")%string
    with ((String "034" "" ++ "InChI=" ++ payload) ++ String "034" "")%string
    at 1.
  - rewrite py_rstrip_last by reflexivity. reflexivity.
Qed.

(** ** [clean_inchis] *)

Lemma canonical_payload_spec (payload : string) :
  canonical_payload payload = true ->
  str_mem " " payload = false /\ occurs "InChI=" payload = false /\
  smiles_start payload = false /\ payload <> "" /\ payload <> "n/a".
Proof.
  unfold canonical_payload. rewrite !andb_true_iff, !negb_true_iff.
  intros ((((H1 & H2) & H3) & H4) & H5).
  apply String.eqb_neq in H4, H5. done.
Qed.

Lemma str_mem_append c (s t : string) :
  str_mem c (s ++ t) = str_mem c s || str_mem c t.
Proof.
  induction s as [ | a s IH]; cbn; [reflexivity | ].
  rewrite IH, orb_assoc. reflexivity.
Qed.

Lemma canonical_not_empty_entry (payload : string) :
  payload <> "" -> payload <> "n/a" ->
  py_in (VStr (canonical_inchi payload)) empty_entry_types = Ok false.
Proof.
  intros Hne Hna. unfold py_in. f_equal.
  destruct (existsb _ _) eqn:E; [ | reflexivity]. exfalso.
  apply existsb_exists in E as (e & Hin & He).
  unfold empty_entry_types in Hin. cbn [In] in Hin.
  repeat (destruct Hin as [<- | Hin]); try contradiction;
    cbn [py_eqb scalar_eqb] in He; try discriminate;
    apply String.eqb_eq in He; unfold canonical_inchi in He; cbn in He;
    try discriminate.
  - injection He as He. apply (append_last_inj payload "n/a" "034") in He. done.
  - injection He as He. apply (append_last_inj payload "" "034") in He. done.
Qed.

Lemma repaired_canonical (payload : string) rescue_smiles :
  canonical_payload payload = true ->
  repaired_inchi (VStr (canonical_inchi payload)) rescue_smiles =
  ([], Ok (VStr (canonical_inchi payload))).
Proof.
  intros H. apply canonical_payload_spec in H as (Hsp & Hocc & Hsm & Hne & Hna).
  unfold repaired_inchi.
  rewrite (canonical_not_empty_entry _ Hne Hna).
  rewrite py_replace_absent.
  2:{ unfold canonical_inchi. cbn. rewrite str_mem_append, Hsp. reflexivity. }
  rewrite (split_last_canonical _ Hocc).
  destruct payload as [ | c payload]; [done | ].
  cbn [append py_index0]. cbn [smiles_start] in Hsm. rewrite Hsm.
  cbn [andb rbind]. rewrite py_strip_canonical, (split_last_canonical _ Hocc).
  unfold wrap_inchi. rewrite py_endswith_dquote. reflexivity.
Qed.

Lemma get_Some (self : Metadata) key v :
  get self key = v -> v <> VNone -> _data self !! key = Some v.
Proof.
  unfold get, dict_get. destruct (_data self !! key); cbn; congruence.
Qed.

(** C8.  A value in the canonical quoted form is repaired to itself: the
    converter is not called and the field is written back with the value it
    had, so with [harmonize_defaults] off the spectrum comes back as it
    was. *)
Theorem canonical_inchi_unchanged (spectrum : Spectrum) rescue_smiles payload :
  canonical_payload payload = true ->
  __getitem__ (metadata spectrum) "inchi" = VStr (canonical_inchi payload) ->
  repaired_inchi (VStr (canonical_inchi payload)) rescue_smiles =
    ([], Ok (VStr (canonical_inchi payload)))
  /\ clean_inchis spectrum rescue_smiles =
       ([], let* md := __setitem__ (metadata spectrum) "inchi"
                         (VStr (canonical_inchi payload)) in
            Ok {| metadata := md |})
  /\ (harmonize_defaults (metadata spectrum) = false ->
      clean_inchis spectrum rescue_smiles = ([], Ok spectrum)).
Proof.
  intros Hc Hg. pose proof (repaired_canonical payload rescue_smiles Hc) as Hr.
  assert (clean_inchis spectrum rescue_smiles =
            ([], let* md := __setitem__ (metadata spectrum) "inchi"
                              (VStr (canonical_inchi payload)) in
                 Ok {| metadata := md |})) as Hclean.
  { unfold clean_inchis. rewrite Hg, Hr. reflexivity. }
  repeat split; [exact Hr | exact Hclean | ].
  intros Hoff. rewrite Hclean. unfold __setitem__, set.
  unfold __getitem__ in Hg. apply get_Some in Hg; [ | discriminate].
  rewrite (setitem_same _ _ _ Hg), Hoff. cbn. destruct spectrum. reflexivity.
Qed.

(** C9 (amended).  A value that equals one of the listed empty entries is
    replaced by ["n/a"], with no converter call and no other change to the
    value; every entry of the list is such a value. *)
Theorem listed_empty_entry_becomes_na (spectrum : Spectrum) rescue_smiles :
  (py_in (__getitem__ (metadata spectrum) "inchi") empty_entry_types = Ok true ->
   repaired_inchi (__getitem__ (metadata spectrum) "inchi") rescue_smiles =
     ([], Ok (VStr "n/a"))
   /\ clean_inchis spectrum rescue_smiles =
        ([], let* md := __setitem__ (metadata spectrum) "inchi" (VStr "n/a") in
             Ok {| metadata := md |}))
  /\ Forall (fun entry => py_in entry empty_entry_types = Ok true)
       empty_entry_types.
Proof.
  split.
  - intros H.
    assert (repaired_inchi (__getitem__ (metadata spectrum) "inchi")
              rescue_smiles = ([], Ok (VStr "n/a"))) as Hr.
    { unfold repaired_inchi. rewrite H. reflexivity. }
    split; [exact Hr | ]. unfold clean_inchis. rewrite Hr. reflexivity.
  - unfold empty_entry_types. repeat constructor.
Qed.

(** C10.  A spectrum whose record has no [inchi] key makes [clean_inchis]
    raise: the lookup gives [None], which is not among the empty entries,
    and [None] has no [replace]. *)
Theorem missing_inchi_raises (spectrum : Spectrum) rescue_smiles :
  _data (metadata spectrum) !! "inchi" = None ->
  __getitem__ (metadata spectrum) "inchi" = VNone
  /\ py_in VNone empty_entry_types = Ok false
  /\ clean_inchis spectrum rescue_smiles = ([], Raise AttributeError).
Proof.
  intros H.
  assert (__getitem__ (metadata spectrum) "inchi" = VNone) as Hg.
  { unfold __getitem__, get, dict_get. rewrite H. reflexivity. }
  repeat split; [exact Hg | ].
  unfold clean_inchis. rewrite Hg. reflexivity.
Qed.

(** * Further properties of the embedded code *)

(** ** [_convert_precursor_mz] *)

(** X1.  A converted value is [None], a [float] or an [int], never a
    string, and converting it again gives the same value. *)
Theorem convert_precursor_mz_idempotent (v : pyvalue) :
  _convert_precursor_mz (_convert_precursor_mz v) = _convert_precursor_mz v
  /\ isinstance_str (_convert_precursor_mz v) = false
  /\ (is_None (_convert_precursor_mz v)
      || isinstance_float (_convert_precursor_mz v)
      || isinstance_int (_convert_precursor_mz v) = true).
Proof.
  destruct (convert_precursor_mz_cases v)
    as [E | [[f E] | [[z [E _]] | [b [E _]]]]]; rewrite E; repeat split.
Qed.

(** ** [_add_precursor_mz_metadata] *)

(** X2.  Resolution changes no key but [precursor_mz], [precursormz] and
    [precursor_mass]; in particular [pepmass] stays.  It never removes
    [precursor_mz], and an alias key is either removed or left with its
    value. *)
Theorem resolution_frame (metadata d : gmap string pyvalue) :
  _add_precursor_mz_metadata metadata = Ok d ->
  (forall k,
     k <> "precursor_mz" -> k <> "precursormz" -> k <> "precursor_mass" ->
     d !! k = metadata !! k)
  /\ d !! "pepmass" = metadata !! "pepmass"
  /\ (is_Some (metadata !! "precursor_mz") -> is_Some (d !! "precursor_mz"))
  /\ (d !! "precursormz" = None \/ d !! "precursormz" = metadata !! "precursormz")
  /\ (d !! "precursor_mass" = None
      \/ d !! "precursor_mass" = metadata !! "precursor_mass").
Proof.
  intros H. split; [ | split].
  - intros k H0 H1 H2. apply (resolution_other_keys _ _ k H); done.
  - apply (resolution_other_keys _ _ "pepmass" H); done.
  - rewrite resolution_unfold in H.
    destruct (isinstance_float _ || isinstance_int _).
    + destruct (py_float (first_key_value metadata)) as [f | e]; cbn in H;
        [ | discriminate].
      injection H as <-. repeat split.
      * intros _. rewrite !lookup_delete_ne, lookup_insert_eq by done. eauto.
      * left. rewrite lookup_delete_ne, lookup_delete_eq by done. reflexivity.
      * left. apply lookup_delete_eq.
    + destruct (negb (is_None (dict_get metadata "pepmass")));
        [ | injection H as <-; auto].
      destruct (py_index0 (dict_get metadata "pepmass")) as [token | e];
        cbn in H; [ | discriminate].
      destruct (negb (is_None (_convert_precursor_mz token)));
        injection H as <-; [ | auto].
      repeat split.
      * intros _. rewrite lookup_insert_eq. eauto.
      * right. apply lookup_insert_ne. done.
      * right. apply lookup_insert_ne. done.
Qed.

(** X3.  Resolution raises in two situations only: the first present key
    holds an [int] too large for a [float] ([OverflowError] of
    [float(precursor_mz)]), or that key yields nothing and the subscript
    [pepmass[0]] raises. *)
Theorem resolution_raises_only (metadata : gmap string pyvalue) e :
  _add_precursor_mz_metadata metadata = Raise e ->
  (e = OverflowError /\
   exists z, first_key_value metadata = VInt z /\ float_of_Z z = None)
  \/ (first_key_value metadata = VNone /\
      is_None (dict_get metadata "pepmass") = false /\
      py_index0 (dict_get metadata "pepmass") = Raise e).
Proof.
  rewrite resolution_unfold. unfold first_key_value.
  destruct (convert_precursor_mz_cases
              (dict_get_opt metadata
                 (get_first_common_element (dom metadata)
                    (_default_key :: _accepted_keys))))
    as [E | [[f E] | [[z [E _]] | [b [E _]]]]]; rewrite E; cbn.
  - destruct (is_None (dict_get metadata "pepmass")) eqn:Ep; cbn;
      [discriminate | ].
    destruct (py_index0 (dict_get metadata "pepmass")) as [token | e'] eqn:Ei;
      cbn.
    + destruct (negb (is_None (_convert_precursor_mz token))); discriminate.
    + intros [= ->]. right. done.
  - discriminate.
  - destruct (float_of_Z z) eqn:Ez; cbn; [discriminate | ].
    intros [= <-]. left. eauto.
  - discriminate.
Qed.

(** X4.  An [int] under [precursor_mz] that is too large for a [float]
    makes resolution raise [OverflowError], whatever else the record
    holds. *)
Theorem resolution_overflow (metadata : gmap string pyvalue) z :
  metadata !! "precursor_mz" = Some (VInt z) ->
  float_of_Z z = None ->
  _add_precursor_mz_metadata metadata = Raise OverflowError.
Proof.
  intros H Hz.
  rewrite resolution_unfold, (first_key_value_stored _ _ H). cbn.
  rewrite Hz. reflexivity.
Qed.

(** What resolution returns is a record on which resolution has settled. *)
Lemma resolution_output_stable (m d : gmap string pyvalue) :
  _add_precursor_mz_metadata m = Ok d -> resolution_stable d = true.
Proof.
  intros H. pose proof H as H'. rewrite resolution_unfold in H'.
  unfold resolution_stable, fallback_token.
  destruct (is_None (first_key_value m)) eqn:En.
  - assert (first_key_value m = VNone) as Ev.
    { destruct (first_key_value m) as [[ | | | | ] | | | | ]; cbn in En;
        congruence. }
    rewrite (first_key_value_none _ Ev) in H'.
    destruct (is_None (dict_get m "pepmass")) eqn:Ep; cbn [negb] in H'.
    { injection H' as <-. rewrite En.
      destruct (dict_get m "pepmass") as [[ | | | | ] | | | | ]; cbn in Ep;
        try discriminate. reflexivity. }
    destruct (py_index0 (dict_get m "pepmass")) as [token | e] eqn:Ei;
      cbn in H'; [ | discriminate].
    destruct (is_None (_convert_precursor_mz token)) eqn:Ec; cbn [negb] in H'.
    { injection H' as <-. rewrite En, Ei, Ec. reflexivity. }
    injection H' as <-.
    rewrite (first_key_value_stored _ token) by apply lookup_insert_eq.
    rewrite Ec. reflexivity.
  - rewrite (first_key_value_number _ En) in H'.
    destruct (py_float (first_key_value m)) as [f | e]; cbn in H';
      [ | discriminate].
    injection H' as <-.
    rewrite (first_key_value_stored _ (VFloat f)).
    + reflexivity.
    + rewrite !lookup_delete_ne, lookup_insert_eq by done. reflexivity.
Qed.

(** X5.  Resolution settles after two applications: applied to what it has
    returned it may still cast the stored token and remove alias keys, but
    applied once more it returns its argument. *)
Theorem resolution_settles (m d d' : gmap string pyvalue) :
  _add_precursor_mz_metadata m = Ok d ->
  _add_precursor_mz_metadata d = Ok d' ->
  _add_precursor_mz_metadata d' = Ok d'.
Proof.
  intros H1 H2.
  apply (proj1 (resolution_twice _ _ H2)), (resolution_output_stable _ _ H1).
Qed.

(** X6.  A [pepmass] that is a string is subscripted like any sequence: when
    the first present key yields nothing and the first character reads as a
    number, that one character is stored under [precursor_mz]. *)
Theorem resolution_string_pepmass (metadata : gmap string pyvalue) c rest f :
  first_key_value metadata = VNone ->
  dict_get metadata "pepmass" = VStr (String c rest) ->
  float_of_str (py_strip (String c "")) = Some f ->
  _add_precursor_mz_metadata metadata =
  Ok (<["precursor_mz" := VStr (String c "")]> metadata).
Proof.
  intros Hv Hp Hf.
  rewrite resolution_unfold, (first_key_value_none _ Hv), Hp.
  cbn [is_None negb py_index0 rbind].
  assert (_convert_precursor_mz (VStr (String c "")) = VFloat f) as ->.
  { unfold _convert_precursor_mz. cbn -[py_strip].
    destruct (Ascii.eqb c "N"), (Ascii.eqb c "n"); cbn -[py_strip];
      rewrite Hf; reflexivity. }
  reflexivity.
Qed.

(** ** [Metadata.harmonize_metadata] *)

(** X7.  The pass settles after two runs: a third run returns the record the
    second one returned. *)
Theorem harmonize_settles_after_two_passes (self s1 s2 : Metadata) :
  harmonize_metadata self = Ok s1 ->
  harmonize_metadata s1 = Ok s2 ->
  harmonize_metadata s2 = Ok s2.
Proof.
  intros H1 H2.
  destruct (harmonize_metadata_stages _ _ H1) as (r & d & Hi & Hr & E1).
  destruct (harmonize_metadata_stages _ _ H2) as (r2 & d2 & Hi2 & Hr2 & ->).
  rewrite (second_pass _ _ _ Hi2 Hr2).
  assert (resolution_stable (_data r2) = true) as Hs.
  { destruct (harmonize_ionmode_sets _ _ Hi2) as (t & _ & ->). cbn.
    rewrite resolution_stable_insert by apply ionmode_not_resolution_key.
    rewrite E1.
    destruct (harmonize_charge_cases (with_data r d))
      as [[-> _] | [z (_ & _ & ->)]]; cbn.
    - apply (resolution_output_stable _ _ Hr).
    - rewrite resolution_stable_insert by apply charge_not_resolution_key.
      apply (resolution_output_stable _ _ Hr). }
  rewrite (proj1 (resolution_twice _ _ Hr2) Hs). reflexivity.
Qed.

(** X9.  An [ionmode] that is neither [None] nor a string makes the pass
    raise [AttributeError]: the value has no [lower]. *)
Theorem harmonize_non_string_ionmode_raises (self : Metadata) :
  is_None (get self "ionmode") = false ->
  isinstance_str (get self "ionmode") = false ->
  harmonize_metadata self = Raise AttributeError.
Proof.
  intros Hn Hs. unfold harmonize_metadata, _interpret_pepmass_metadata.
  cbn [rbind]. rewrite with_data_id. unfold harmonize_ionmode.
  destruct (get self "ionmode") as [[ | | | | ] | | | | ]; try discriminate;
    reflexivity.
Qed.

(** X10.  After a pass the charge is an [int], or a value the converter does
    not read; a charge the converter reads is stored as that integer. *)
Theorem harmonize_charge_invariant (self s1 : Metadata) :
  harmonize_metadata self = Ok s1 ->
  (isinstance_int (get s1 "charge") = true
   \/ _convert_charge_to_int (get s1 "charge") = None)
  /\ (forall z,
        isinstance_int (get self "charge") = false ->
        _convert_charge_to_int (get self "charge") = Some z ->
        get s1 "charge" = VInt z)
  /\ (isinstance_int (get self "charge") = true ->
      get s1 "charge" = get self "charge").
Proof.
  intros H.
  destruct (harmonize_metadata_stages _ _ H) as (r & d & Hi & Hr & ->).
  destruct (harmonize_ionmode_sets _ _ Hi) as (t & _ & ->).
  assert (get (with_data (setitem_data self "ionmode" (VStr t)) d) "charge"
          = get self "charge") as Eg.
  { unfold get, dict_get. cbn.
    rewrite (resolution_other_keys _ _ "charge" Hr) by done.
    cbn. rewrite lookup_insert_ne by done. reflexivity. }
  destruct (harmonize_charge_cases
              (with_data (setitem_data self "ionmode" (VStr t)) d))
    as [[E Hc] | [z (Hint & Hconv & E)]]; rewrite E.
  - rewrite Eg in *. repeat split.
    + exact Hc.
    + intros z Hint Hconv. destruct Hc; congruence.
  - rewrite Eg in *. rewrite get_setitem_eq. repeat split.
    + left. reflexivity.
    + intros z' _ Hz'. congruence.
    + congruence.
Qed.

(** ** [Metadata.set] *)

Lemma harmonize_other_keys (self s1 : Metadata) k :
  harmonize_metadata self = Ok s1 ->
  ~ harmonized_key k ->
  _data s1 !! k = _data self !! k.
Proof.
  intros H Hk.
  destruct (harmonize_metadata_stages _ _ H) as (r & d & Hi & Hr & ->).
  destruct (harmonize_ionmode_sets _ _ Hi) as (t & _ & ->).
  unfold harmonized_key in Hk.
  rewrite harmonize_charge_other_keys by (intros ->; apply Hk; auto 6). cbn.
  rewrite (resolution_other_keys _ _ k Hr) by (intros ->; apply Hk; auto 6).
  cbn. apply lookup_insert_ne. intros <-. apply Hk. auto.
Qed.

Lemma set_then_get_ordinary (self s1 : Metadata) key value :
  set self key value = Ok s1 ->
  ~ harmonized_key key ->
  get s1 key = value.
Proof.
  intros Hset Hkey. unfold set in Hset. cbn in Hset.
  destruct (harmonize_defaults self).
  - unfold get, dict_get.
    rewrite (harmonize_other_keys _ _ key Hset Hkey). cbn.
    rewrite lookup_insert_eq. reflexivity.
  - injection Hset as <-. apply get_setitem_eq.
Qed.

(** X12.  With [harmonize_defaults] on, a value written to [ionmode] or
    [charge] is read back normalised: a string ion mode in lower case, a
    null ion mode as ["n/a"], a charge the converter reads as that integer;
    an ion mode of another type makes [set] raise [AttributeError]. *)
Theorem set_normalises (self : Metadata) :
  harmonize_defaults self = true ->
  (forall s s1,
     set self "ionmode" (VStr s) = Ok s1 ->
     get s1 "ionmode" = VStr (py_lower s))
  /\ (forall s1,
        set self "ionmode" VNone = Ok s1 -> get s1 "ionmode" = VStr "n/a")
  /\ (forall v,
        is_None v = false -> isinstance_str v = false ->
        set self "ionmode" v = Raise AttributeError)
  /\ (forall v z s1,
        isinstance_int v = false -> _convert_charge_to_int v = Some z ->
        set self "charge" v = Ok s1 -> get s1 "charge" = VInt z).
Proof.
  intros Hon.
  assert (forall key v, set self key v = harmonize_metadata (setitem_data self key v))
    as Hset.
  { intros key v. unfold set. cbn. rewrite Hon. reflexivity. }
  assert (forall r s1 t,
            harmonize_metadata r = Ok s1 ->
            harmonize_ionmode r = Ok (setitem_data r "ionmode" (VStr t)) ->
            get s1 "ionmode" = VStr t) as Hion.
  { intros r s1 t H Hi.
    destruct (harmonize_metadata_stages _ _ H) as (r' & d & Hi' & Hr & ->).
    rewrite Hi in Hi'. injection Hi' as <-.
    unfold get, dict_get. rewrite harmonize_charge_other_keys by done. cbn.
    rewrite (resolution_other_keys _ _ "ionmode" Hr) by done.
    cbn. rewrite lookup_insert_eq. reflexivity. }
  repeat split.
  - intros s s1. rewrite Hset. intros H. apply (Hion _ _ _ H).
    unfold harmonize_ionmode. rewrite get_setitem_eq. cbn.
    rewrite get_setitem_eq. reflexivity.
  - intros s1. rewrite Hset. intros H. apply (Hion _ _ _ H).
    unfold harmonize_ionmode. rewrite get_setitem_eq. cbn.
    rewrite get_setitem_eq. reflexivity.
  - intros v Hn Hs. rewrite Hset.
    unfold harmonize_metadata, _interpret_pepmass_metadata. cbn [rbind].
    rewrite with_data_id. unfold harmonize_ionmode. rewrite get_setitem_eq.
    destruct v as [[ | | | | ] | | | | ]; try discriminate; reflexivity.
  - intros v z s1 Hint Hconv. rewrite Hset. intros H.
    destruct (harmonize_metadata_stages _ _ H) as (r & d & Hi & Hr & ->).
    destruct (harmonize_ionmode_sets _ _ Hi) as (t & _ & ->).
    assert (get (with_data (setitem_data (setitem_data self "charge" v)
                              "ionmode" (VStr t)) d) "charge" = v) as Eg.
    { unfold get, dict_get. cbn.
      rewrite (resolution_other_keys _ _ "charge" Hr) by done.
      cbn. rewrite lookup_insert_ne, lookup_insert_eq by done. reflexivity. }
    unfold harmonize_charge. rewrite Eg, Hint, Hconv. cbn.
    apply get_setitem_eq.
Qed.

(** ** [Metadata.__eq__] *)

Lemma eq_true_iff (self other_metadata : Metadata) :
  __eq__ self other_metadata = Ok true <->
  keys self = keys other_metadata /\
  forall key value,
    _data self !! key = Some value ->
    values_equal value (get other_metadata key).
Proof.
  unfold __eq__, items.
  destruct (bool_decide (keys self = keys other_metadata)) eqn:Ek; cbn [negb].
  - apply bool_decide_eq_true_1 in Ek. rewrite eq_items_true, Forall_forall.
    split.
    + intros Hall. split; [done | ]. intros key value Hl.
      apply (Hall (key, value)), elem_of_map_to_list, Hl.
    + intros [_ Hall] [key value] Hin. apply Hall, elem_of_map_to_list, Hin.
  - apply bool_decide_eq_false_1 in Ek.
    split; [discriminate | intros [Hk _]; contradiction].
Qed.

Lemma get_lookup (self : Metadata) key value :
  _data self !! key = Some value -> get self key = value.
Proof. intros H. unfold get, dict_get. rewrite H. reflexivity. Qed.

Lemma eq_items_returns its (other_metadata : Metadata) :
  Forall (fun kv => exists b, field_eq kv.2 (get other_metadata kv.1) = Ok b) its ->
  exists b, eq_items its other_metadata = Ok b.
Proof.
  induction its as [ | [key value] rest IH]; intros Hall; [cbn; eauto | ].
  rewrite eq_items_cons. apply Forall_cons in Hall as [[b Hb] Hall].
  cbn [fst snd] in Hb. rewrite Hb. cbn [rbind].
  destruct b; [apply IH, Hall | eauto].
Qed.

Lemma self_comparisons_return (self : Metadata) :
  Forall (fun kv => exists b, field_eq kv.2 (get self kv.1) = Ok b) (items self).
Proof.
  apply Forall_forall. intros [k v] Hin. cbn [fst snd].
  apply elem_of_map_to_list in Hin. rewrite (get_lookup _ _ _ Hin).
  apply field_eq_self_returns.
Qed.

Lemma scalar_eqb_refl (a : scalar) :
  scalar_is_nan a = false -> scalar_eqb a a = true.
Proof.
  destruct a as [ | b | z | f | t]; cbn; intros H.
  - reflexivity.
  - apply Z.eqb_refl.
  - apply Z.eqb_refl.
  - unfold PrimFloat.is_nan in H. apply negb_false_iff, H.
  - apply String.eqb_refl.
Qed.

Lemma scalars_eqb_refl (l : list scalar) :
  existsb scalar_is_nan l = false -> scalars_eqb l l = true.
Proof.
  induction l as [ | a l IH]; cbn; [reflexivity | ]. intros H.
  apply orb_false_elim in H as [Ha Hl].
  rewrite (scalar_eqb_refl _ Ha), (IH Hl). reflexivity.
Qed.

Lemma floats_eqb_self (xs : list float) :
  floats_eqb xs xs = negb (existsb PrimFloat.is_nan xs).
Proof.
  induction xs as [ | x xs IH]; cbn; [reflexivity | ].
  rewrite IH. unfold PrimFloat.is_nan.
  destruct (PrimFloat.eqb x x); reflexivity.
Qed.

Lemma field_eq_self (v : pyvalue) :
  holds_nan v = false -> field_eq v v = Ok true.
Proof.
  destruct v as [a | l | l | xs | n]; cbn; intros H.
  - rewrite (scalar_eqb_refl _ H). reflexivity.
  - rewrite (scalars_eqb_refl _ H). reflexivity.
  - rewrite (scalars_eqb_refl _ H). reflexivity.
  - rewrite Nat.eqb_refl, floats_eqb_self, H. reflexivity.
  - rewrite Nat.eqb_refl. reflexivity.
Qed.

(** X14.  A record compared with itself never raises.  It is equal to
    itself when none of its values is a NaN or holds one; a NaN stored as a
    [float], or as an element of an array, makes the record unequal to
    itself. *)
Theorem eq_reflexivity (self : Metadata) :
  (exists b, __eq__ self self = Ok b)
  /\ ((forall key value,
         _data self !! key = Some value -> holds_nan value = false) ->
      __eq__ self self = Ok true)
  /\ (forall key f,
        _data self !! key = Some (VFloat f) ->
        PrimFloat.is_nan f = true ->
        __eq__ self self = Ok false)
  /\ (forall key xs,
        _data self !! key = Some (VArray xs) ->
        existsb PrimFloat.is_nan xs = true ->
        __eq__ self self = Ok false).
Proof.
  assert (forall key value,
            _data self !! key = Some value ->
            field_eq value value = Ok false ->
            __eq__ self self = Ok false) as Hfalse.
  { intros key value Hl Hf. unfold __eq__.
    rewrite bool_decide_eq_true_2 by reflexivity. cbn [negb].
    apply eq_items_false; [apply self_comparisons_return | ].
    apply Exists_exists. exists (key, value). split.
    - apply elem_of_map_to_list, Hl.
    - cbn [fst snd]. rewrite (get_lookup _ _ _ Hl). exact Hf. }
  split; [ | split; [ | split]].
  - unfold __eq__. rewrite bool_decide_eq_true_2 by reflexivity. cbn [negb].
    apply eq_items_returns, self_comparisons_return.
  - intros H. apply eq_true_iff. split; [reflexivity | ].
    intros key value Hl. rewrite (get_lookup _ _ _ Hl).
    apply field_eq_self, (H _ _ Hl).
  - intros key f Hl Hnan. apply (Hfalse _ _ Hl).
    unfold PrimFloat.is_nan in Hnan. apply negb_true_iff in Hnan.
    cbn. rewrite Hnan. reflexivity.
  - intros key xs Hl Hnan. apply (Hfalse _ _ Hl).
    cbn. rewrite Nat.eqb_refl, floats_eqb_self, Hnan. reflexivity.
Qed.

Lemma SFeqb_sym (x y : spec_float) : SFeqb x y = SFeqb y x.
Proof.
  unfold SFeqb, SFcompare.
  destruct x as [sx | sx | | sx mx ex], y as [sy | sy | | sy my ey];
    try reflexivity;
    try (destruct sx; reflexivity); try (destruct sy; reflexivity);
    try (destruct sx, sy; reflexivity).
  change (Pos.compare_cont Eq mx my) with (Pos.compare mx my).
  change (Pos.compare_cont Eq my mx) with (Pos.compare my mx).
  rewrite (Z.compare_antisym ex ey), (Pos.compare_antisym mx my).
  destruct sx, sy; try reflexivity;
    destruct (ex ?= ey)%Z; cbn; try reflexivity;
    destruct (mx ?= my)%positive; reflexivity.
Qed.

Lemma float_eqb_sym (x y : float) : PrimFloat.eqb x y = PrimFloat.eqb y x.
Proof. rewrite !FloatAxioms.eqb_spec. apply SFeqb_sym. Qed.

Lemma scalar_eqb_sym (a b : scalar) : scalar_eqb a b = scalar_eqb b a.
Proof.
  destruct a as [ | x | x | f | s], b as [ | y | y | g | t]; cbn;
    try reflexivity.
  - apply Z.eqb_sym.
  - apply Z.eqb_sym.
  - apply float_eqb_sym.
  - apply String.eqb_sym.
Qed.

Lemma scalars_eqb_sym (xs ys : list scalar) : scalars_eqb xs ys = scalars_eqb ys xs.
Proof.
  revert ys. induction xs as [ | x xs IH]; intros [ | y ys]; cbn;
    try reflexivity.
  rewrite scalar_eqb_sym, IH. reflexivity.
Qed.

Lemma py_eqb_sym (v w : pyvalue) : py_eqb v w = py_eqb w v.
Proof.
  destruct v as [a | l | l | xs | n], w as [b | l' | l' | ys | m]; cbn;
    try reflexivity.
  - apply scalar_eqb_sym.
  - apply scalars_eqb_sym.
  - apply scalars_eqb_sym.
  - apply Nat.eqb_sym.
Qed.

Lemma get_array_free (self : Metadata) key :
  array_free self -> isinstance_ndarray (get self key) = false.
Proof.
  intros H. unfold get, dict_get.
  destruct (_data self !! key) as [v | ] eqn:E; [exact (H _ _ E) | reflexivity].
Qed.

Lemma field_eq_no_array (v w : pyvalue) :
  isinstance_ndarray v = false -> isinstance_ndarray w = false ->
  field_eq v w = Ok (py_eqb v w).
Proof.
  intros Hv Hw. unfold field_eq, py_ne.
  destruct v as [a | l | l | xs | n]; try discriminate;
    destruct w as [b | l' | l' | ys | m]; try discriminate; cbn [rbind];
    rewrite negb_involutive; reflexivity.
Qed.

Lemma eq_items_no_array its (other_metadata : Metadata) :
  Forall (fun kv : string * pyvalue => isinstance_ndarray kv.2 = false) its ->
  array_free other_metadata ->
  eq_items its other_metadata =
  Ok (forallb (fun kv => py_eqb kv.2 (get other_metadata kv.1)) its).
Proof.
  intros Hits Ho. induction its as [ | [key value] rest IH]; [reflexivity | ].
  apply Forall_cons in Hits as [Hv Hits]. cbn [fst snd] in Hv.
  rewrite eq_items_cons, field_eq_no_array by (done || apply get_array_free, Ho).
  cbn [rbind forallb fst snd].
  destruct (py_eqb value (get other_metadata key)); [apply IH, Hits | reflexivity].
Qed.

Lemma eq_no_array (self other_metadata : Metadata) :
  array_free self -> array_free other_metadata ->
  __eq__ self other_metadata =
  Ok (bool_decide (keys self = keys other_metadata)
      && forallb (fun kv => py_eqb kv.2 (get other_metadata kv.1)) (items self)).
Proof.
  intros Hs Ho. unfold __eq__.
  destruct (bool_decide (keys self = keys other_metadata)); [ | reflexivity].
  cbn [negb andb]. apply eq_items_no_array; [ | exact Ho].
  apply Forall_forall. intros [k v] Hin. apply elem_of_map_to_list in Hin.
  exact (Hs _ _ Hin).
Qed.

Lemma items_all_equal (self other_metadata : Metadata) :
  forallb (fun kv => py_eqb kv.2 (get other_metadata kv.1)) (items self) = true <->
  forall key value,
    _data self !! key = Some value ->
    py_eqb value (get other_metadata key) = true.
Proof.
  rewrite forallb_forall. split.
  - intros H key value Hl.
    apply (H (key, value)), list_elem_of_In, elem_of_map_to_list, Hl.
  - intros H [key value] Hin.
    apply list_elem_of_In, elem_of_map_to_list in Hin. apply H, Hin.
Qed.

(** X15.  When neither record holds an array, [__eq__] never raises and is
    symmetric. *)
Theorem eq_symmetric_without_arrays (self other_metadata : Metadata) :
  array_free self -> array_free other_metadata ->
  (exists b, __eq__ self other_metadata = Ok b)
  /\ __eq__ self other_metadata = __eq__ other_metadata self.
Proof.
  intros Hs Ho. rewrite (eq_no_array _ _ Hs Ho), (eq_no_array _ _ Ho Hs).
  split; [eauto | ]. f_equal.
  assert (forall a b : Metadata,
            keys a = keys b ->
            (forall key value, _data a !! key = Some value ->
                               py_eqb value (get b key) = true) ->
            forall key value, _data b !! key = Some value ->
                              py_eqb value (get a key) = true) as Hswap.
  { intros a b Hk H key value Hl.
    assert (key ∈ dom (_data a)) as Hin.
    { change (key ∈ keys a). rewrite Hk. apply elem_of_dom. eauto. }
    apply elem_of_dom in Hin as [v Hv].
    specialize (H _ _ Hv).
    rewrite (get_lookup _ _ _ Hl) in H. rewrite (get_lookup _ _ _ Hv).
    rewrite py_eqb_sym. exact H. }
  destruct (bool_decide (keys self = keys other_metadata)) eqn:Ek.
  - apply bool_decide_eq_true_1 in Ek.
    rewrite (bool_decide_eq_true_2 (keys other_metadata = keys self)) by done.
    cbn [andb]. apply eq_true_iff_eq. rewrite !items_all_equal. split.
    + apply Hswap. exact Ek.
    + apply Hswap. symmetry. exact Ek.
  - apply bool_decide_eq_false_1 in Ek.
    rewrite (bool_decide_eq_false_2 (keys other_metadata = keys self))
      by (intros E; apply Ek; symmetry; exact E).
    reflexivity.
Qed.

(** ** [clean_inchis]: what is stored, and when the converter is called *)

Lemma string_last_decomp (t : string) :
  t <> "" -> exists b a, t = (b ++ String a "")%string.
Proof.
  induction t as [ | c t IH]; [done | ]. intros _.
  destruct t as [ | c' t].
  - exists "", c. reflexivity.
  - destruct IH as (b & a & E); [done | ].
    exists (String c b), a. cbn. rewrite <- E. reflexivity.
Qed.

Lemma py_endswith_char_inv c (t : string) :
  py_endswith (String c "") t = true -> exists b, t = (b ++ String c "")%string.
Proof.
  destruct t as [ | c0 t0] eqn:Et; [discriminate | ]. rewrite <- Et.
  destruct (string_last_decomp t) as (b & a & ->); [rewrite Et; done | ].
  unfold py_endswith. rewrite length_append_last. cbn [String.length].
  replace (S (String.length b) - 1)%nat with (String.length b) by lia.
  rewrite substring_last. cbn. intros H.
  destruct (Ascii.eqb_spec a c) as [-> | ]; [eauto | discriminate].
Qed.

(** Whatever the payload, the wrapper gives a string in quotes that starts
    with the marker. *)
Lemma wrap_inchi_shape (t : string) :
  exists body, wrap_inchi t = canonical_inchi body.
Proof.
  unfold wrap_inchi.
  destruct (py_endswith dquote t) eqn:E1.
  - apply py_endswith_char_inv in E1 as [b ->]. exists b. reflexivity.
  - destruct (py_endswith newline t).
    + exists (drop_last 2 t). reflexivity.
    + destruct (py_endswith (newline ++ dquote) t).
      * exists (drop_last 3 t). reflexivity.
      * exists t. reflexivity.
Qed.

Lemma repaired_inchi_shape (v : pyvalue) rescue_smiles calls out :
  repaired_inchi v rescue_smiles = (calls, Ok out) ->
  out = VStr "n/a" \/ exists body, out = VStr (canonical_inchi body).
Proof.
  unfold repaired_inchi.
  destruct (py_in v empty_entry_types) as [[ | ] | e]; [ | | discriminate].
  { intros [= _ <-]. left. reflexivity. }
  destruct v as [[ | | | | s] | | | | ]; try discriminate.
  destruct (py_index0 _) as [first | e]; [ | discriminate].
  destruct (looks_like_smiles first && rescue_smiles).
  - destruct (mol_converter _ _ _) as [[[ | | | | w] | | | | ] | e]; cbn;
      try discriminate.
    intros [= _ <-]. right.
    destruct (wrap_inchi_shape (split_last "InChI=" (py_strip w))) as [b ->].
    eauto.
  - cbn. intros [= _ <-]. right.
    destruct (wrap_inchi_shape
                (split_last "InChI=" (py_strip (py_replace " " "" s))))
      as [b ->].
    eauto.
Qed.

Lemma inchi_not_harmonized_key : ~ harmonized_key "inchi".
Proof. unfold harmonized_key. intros [H | [H | [H | [H | H]]]]; discriminate. Qed.

(** X16.  When [clean_inchis] returns, the [inchi] of the spectrum it
    returns is ["n/a"] or a string in quotes that starts with the marker
    [InChI=], with or without harmonization on assignment. *)
Theorem clean_inchis_stores_na_or_quoted (spectrum spectrum' : Spectrum)
  rescue_smiles calls :
  clean_inchis spectrum rescue_smiles = (calls, Ok spectrum') ->
  get (metadata spectrum') "inchi" = VStr "n/a"
  \/ exists body, get (metadata spectrum') "inchi" = VStr (canonical_inchi body).
Proof.
  unfold clean_inchis.
  destruct (repaired_inchi (__getitem__ (metadata spectrum) "inchi") rescue_smiles)
    as [calls' [out | e]] eqn:Er; [ | discriminate].
  cbn [rbind]. unfold __setitem__.
  destruct (set (metadata spectrum) "inchi" out) as [md | e] eqn:Es;
    [ | discriminate].
  cbn [rbind]. intros [= _ <-]. cbn [metadata].
  rewrite (set_then_get_ordinary _ _ _ _ Es inchi_not_harmonized_key).
  exact (repaired_inchi_shape _ _ _ _ Er).
Qed.

(** X17.  The converter is called at most once, and not at all when
    [rescue_smiles] is off or the value is one of the empty entries; the
    calls of [clean_inchis] are those of the repair of the field. *)
Theorem converter_called_at_most_once (inchi : pyvalue) rescue_smiles :
  (length (repaired_inchi inchi rescue_smiles).1 <= 1)%nat
  /\ (repaired_inchi inchi false).1 = []
  /\ (py_in inchi empty_entry_types = Ok true ->
      (repaired_inchi inchi rescue_smiles).1 = [])
  /\ (forall spectrum,
        (clean_inchis spectrum rescue_smiles).1 =
        (repaired_inchi (__getitem__ (metadata spectrum) "inchi")
           rescue_smiles).1).
Proof.
  assert (forall r, length (repaired_inchi inchi r).1 <= 1
                    /\ (r = false -> (repaired_inchi inchi r).1 = []))%nat as H.
  { intros r. unfold repaired_inchi.
    destruct (py_in inchi empty_entry_types) as [[ | ] | e];
      [cbn; auto | | cbn; auto].
    destruct inchi as [[ | | | | s] | | | | ]; try (cbn; auto; fail).
    destruct (py_index0 (VStr (split_last "InChI=" (py_replace " " "" s))))
      as [first | e]; [ | cbn; auto].
    destruct (looks_like_smiles first), r; cbn; auto.
    split; [lia | discriminate]. }
  split; [apply H | ]. split; [apply H; reflexivity | ]. split.
  - intros Hin. unfold repaired_inchi. rewrite Hin. reflexivity.
  - intros spectrum. unfold clean_inchis.
    destruct (repaired_inchi _ _) as [calls out]. reflexivity.
Qed.

Lemma all_spaces_replace (s : string) :
  all_spaces s = true -> py_replace " " "" s = "".
Proof.
  induction s as [ | c s IH]; [reflexivity | ]. cbn.
  intros H. apply andb_prop in H as [Hc Hs]. rewrite Hc. cbn. apply IH, Hs.
Qed.

Lemma all_spaces_not_empty_entry (s : string) :
  all_spaces s = true -> s <> "" ->
  py_in (VStr s) empty_entry_types = Ok false.
Proof.
  intros Hall Hne. unfold py_in. f_equal.
  destruct (existsb _ _) eqn:E; [ | reflexivity]. exfalso.
  apply existsb_exists in E as (e & Hin & He).
  unfold empty_entry_types in Hin. cbn [In] in Hin.
  repeat (destruct Hin as [<- | Hin]); try contradiction;
    cbn [py_eqb scalar_eqb] in He; try discriminate;
    apply String.eqb_eq in He; subst s; try (vm_compute in Hall; discriminate).
  apply Hne. reflexivity.
Qed.

(** X18.  A non-empty [inchi] made of spaces only makes [clean_inchis]
    raise [IndexError]: once the spaces are removed there is no first
    character to look at.  Nothing is written and the converter is not
    called. *)
Theorem spaces_only_inchi_raises (spectrum : Spectrum) rescue_smiles s :
  __getitem__ (metadata spectrum) "inchi" = VStr s ->
  all_spaces s = true -> s <> "" ->
  clean_inchis spectrum rescue_smiles = ([], Raise IndexError).
Proof.
  intros Hg Hall Hne. unfold clean_inchis, repaired_inchi.
  rewrite Hg, (all_spaces_not_empty_entry _ Hall Hne), (all_spaces_replace _ Hall).
  reflexivity.
Qed.

(** X19.  An [inchi] that is not a string and does not equal an empty entry
    (a number other than 0, [True], a list, a tuple, an object, [None])
    makes [clean_inchis] raise [AttributeError] without writing anything. *)
Theorem non_string_inchi_raises (spectrum : Spectrum) rescue_smiles :
  isinstance_str (__getitem__ (metadata spectrum) "inchi") = false ->
  py_in (__getitem__ (metadata spectrum) "inchi") empty_entry_types = Ok false ->
  clean_inchis spectrum rescue_smiles = ([], Raise AttributeError).
Proof.
  intros Hs Hin. unfold clean_inchis, repaired_inchi. rewrite Hin.
  destruct (__getitem__ (metadata spectrum) "inchi") as [[ | | | | s] | | | | ];
    try discriminate; reflexivity.
Qed.

(** ** [clean_inchis]: the rescue and the wrapper *)

Lemma smiles_marker_not_empty_entry (payload : string) :
  smiles_start payload = true ->
  py_in (VStr ("InChI=" ++ payload)) empty_entry_types = Ok false.
Proof.
  intros Hsm. unfold py_in. f_equal.
  destruct (existsb _ _) eqn:E; [ | reflexivity]. exfalso.
  apply existsb_exists in E as (e & Hin & He).
  unfold empty_entry_types in Hin. cbn [In] in Hin.
  repeat (destruct Hin as [<- | Hin]); try contradiction;
    cbn [py_eqb scalar_eqb] in He; try discriminate;
    apply String.eqb_eq in He; cbn in He; try discriminate.
  injection He as ->. vm_compute in Hsm. discriminate.
Qed.

Lemma split_last_after_marker (payload : string) :
  occurs "InChI=" payload = false ->
  split_last "InChI=" ("InChI=" ++ payload) = payload.
Proof.
  intros H. unfold split_last, py_split.
  rewrite split_go_at_separator, split_go_no_occurrence by done.
  reflexivity.
Qed.

(** X20.  The rescue.  For an unquoted marker followed by a payload that
    starts like a SMILES string (no space, no further marker) and with
    [rescue_smiles] on, the converter is called once, on the payload without
    its double quotes; an exception of the converter is the exception of the
    repair, a result that is not a string ([None] for a structure the
    converter cannot read) gives [AttributeError], and a string result is
    what gets wrapped, in place of the payload. *)
Theorem rescue_uses_converter_output (payload : string) :
  str_mem " " payload = false ->
  occurs "InChI=" payload = false ->
  smiles_start payload = true ->
  (repaired_inchi (VStr ("InChI=" ++ payload)) true).1 =
    [(py_replace "034" "" payload, "smi", "inchi")]
  /\ (forall e,
        mol_converter (py_replace "034" "" payload) "smi" "inchi" = Raise e ->
        (repaired_inchi (VStr ("InChI=" ++ payload)) true).2 = Raise e)
  /\ (forall v,
        mol_converter (py_replace "034" "" payload) "smi" "inchi" = Ok v ->
        isinstance_str v = false ->
        (repaired_inchi (VStr ("InChI=" ++ payload)) true).2 =
          Raise AttributeError)
  /\ (forall w,
        mol_converter (py_replace "034" "" payload) "smi" "inchi" = Ok (VStr w) ->
        (repaired_inchi (VStr ("InChI=" ++ payload)) true).2 =
          Ok (VStr (wrap_inchi (split_last "InChI=" (py_strip w))))).
Proof.
  intros Hsp Hocc Hsm.
  assert (repaired_inchi (VStr ("InChI=" ++ payload)) true =
          ([(py_replace "034" "" payload, "smi", "inchi")],
           let* working :=
             mol_converter (py_replace "034" "" payload) "smi" "inchi" in
           match working with
           | VStr w => Ok (VStr (wrap_inchi (split_last "InChI=" (py_strip w))))
           | _ => Raise AttributeError
           end)) as E.
  { unfold repaired_inchi.
    rewrite (smiles_marker_not_empty_entry _ Hsm).
    rewrite py_replace_absent.
    2:{ cbn. exact Hsp. }
    rewrite (split_last_after_marker _ Hocc).
    destruct payload as [ | c payload]; [discriminate | ].
    cbn [py_index0]. cbn [smiles_start] in Hsm. rewrite Hsm. reflexivity. }
  rewrite E. cbn [fst snd]. repeat split.
  - intros e ->. reflexivity.
  - intros v -> Hv. cbn [rbind].
    destruct v as [[ | | | | ] | | | | ]; try reflexivity. discriminate.
  - intros w ->. reflexivity.
Qed.

Lemma last_char_append_last (t : string) c :
  last_char (t ++ String c "") = Some c.
Proof.
  induction t as [ | a t IH]; [reflexivity | ].
  cbn. rewrite IH. destruct t; reflexivity.
Qed.

Lemma last_char_append (s t : string) :
  t <> "" -> last_char (s ++ t) = last_char t.
Proof.
  intros Ht. induction s as [ | a s IH]; [reflexivity | ].
  cbn. rewrite IH. destruct (s ++ t)%string eqn:E; [ | reflexivity].
  destruct s, t; try discriminate. done.
Qed.

Lemma substring_full (t : string) : String.substring 0 (String.length t) t = t.
Proof. induction t as [ | c t IH]; cbn; [reflexivity | rewrite IH; reflexivity]. Qed.

Lemma substring_suffix (t suf : string) k n :
  (k + n = String.length t)%nat ->
  String.substring k n t = suf -> exists b, t = (b ++ suf)%string.
Proof.
  revert k. induction t as [ | c t IH]; intros k Hlen H.
  - cbn in Hlen. assert (k = 0 /\ n = 0)%nat as [-> ->] by lia.
    cbn in H. subst suf. exists "". reflexivity.
  - destruct k as [ | k].
    + assert (n = String.length (String c t)) as -> by exact Hlen.
      rewrite substring_full in H. subst suf.
      exists "". reflexivity.
    + cbn in Hlen. cbn in H.
      destruct (IH k ltac:(lia) H) as [b ->]. exists (String c b). reflexivity.
Qed.

Lemma py_endswith_inv (suf t : string) :
  py_endswith suf t = true -> exists b, t = (b ++ suf)%string.
Proof.
  unfold py_endswith. intros H. apply andb_prop in H as [Hle Heq].
  apply Nat.leb_le in Hle. apply String.eqb_eq in Heq.
  eapply substring_suffix; [ | exact Heq]. lia.
Qed.

Lemma py_endswith_last_char (t : string) c :
  py_endswith (String c "") t = true -> last_char t = Some c.
Proof.
  intros H. apply py_endswith_inv in H as [b ->]. apply last_char_append_last.
Qed.

Lemma py_rstrip_last_char (s : string) :
  last_char (py_rstrip s) = None
  \/ exists c, last_char (py_rstrip s) = Some c /\ is_space c = false.
Proof.
  induction s as [ | a s IH]; [left; reflexivity | ]. cbn [py_rstrip].
  destruct (py_rstrip s) as [ | b r] eqn:E.
  - destruct (is_space a) eqn:Ea; [left; reflexivity | right; eauto].
  - exact IH.
Qed.

Lemma py_lstrip_last_char (s : string) :
  last_char (py_lstrip s) = None \/ last_char (py_lstrip s) = last_char s.
Proof.
  induction s as [ | a s IH]; [left; reflexivity | ]. cbn [py_lstrip].
  destruct (is_space a); [ | right; reflexivity].
  destruct s as [ | b s]; [left; reflexivity | ].
  exact IH.
Qed.

Lemma py_strip_last_char (s : string) :
  last_char (py_strip s) = None
  \/ exists c, last_char (py_strip s) = Some c /\ is_space c = false.
Proof.
  unfold py_strip.
  destruct (py_lstrip_last_char (py_rstrip s)) as [E | E]; [left; exact E | ].
  rewrite E. apply py_rstrip_last_char.
Qed.

Lemma split_go_not_nil (sep : string) skip cur (s : string) :
  split_go sep skip cur s <> [].
Proof.
  revert skip cur. induction s as [ | c s IH]; intros skip cur; [done | ].
  destruct skip as [ | k]; [ | exact (IH k cur)].
  rewrite split_go_cons.
  destruct (String.prefix sep (String c s)); [done | apply IH].
Qed.

Lemma last_cons_not_nil {A} (a d : A) (l : list A) :
  l <> [] -> List.last (a :: l) d = List.last l d.
Proof. destruct l; [done | reflexivity]. Qed.

(** The last piece of a split ends as the text does, or is empty. *)
Lemma split_go_last_char (sep : string) skip cur (s : string) :
  skip = 0%nat \/ cur = "" ->
  last_char (List.last (split_go sep skip cur s) "") = None
  \/ last_char (List.last (split_go sep skip cur s) "") = last_char (cur ++ s).
Proof.
  revert skip cur. induction s as [ | c s IH]; intros skip cur Hinv.
  - right. cbn. rewrite append_nil_r. reflexivity.
  - destruct skip as [ | k].
    + rewrite split_go_cons.
      destruct (String.prefix sep (String c s)).
      * rewrite last_cons_not_nil by apply split_go_not_nil.
        destruct s as [ | c' s]; [left; reflexivity | ].
        destruct (IH (String.length sep - 1)%nat "" ltac:(auto)) as [E | E];
          [left; exact E | right].
        rewrite E. cbn [append].
        rewrite (last_char_append cur (String c (String c' s))) by done.
        reflexivity.
      * destruct (IH 0%nat (cur ++ String c "")%string ltac:(auto)) as [E | E];
          [left; exact E | right].
        rewrite E, append_assoc. reflexivity.
    + destruct Hinv as [Hinv | ->]; [discriminate | ].
      change (split_go sep (S k) "" (String c s)) with (split_go sep k "" s).
      destruct s as [ | c' s]; [left; reflexivity | ].
      destruct (IH k "" ltac:(auto)) as [E | E]; [left; exact E | right].
      rewrite E. reflexivity.
Qed.

Lemma payload_last_char (w : string) :
  last_char (split_last "InChI=" (py_strip w)) = None
  \/ exists c, last_char (split_last "InChI=" (py_strip w)) = Some c
               /\ is_space c = false.
Proof.
  unfold split_last, py_split.
  destruct (split_go_last_char "InChI=" 0 "" (py_strip w) ltac:(auto)) as [E | E];
    [left; exact E | ].
  rewrite E. cbn [append]. apply py_strip_last_char.
Qed.

(** X21.  The payload that reaches the wrapper has been stripped, so it
    never ends in a newline: the two branches of the wrapper that cut two or
    three characters off the end are never taken, and the stored string
    holds the whole payload. *)
Theorem wrapper_never_truncates (w : string) :
  py_endswith newline (split_last "InChI=" (py_strip w)) = false
  /\ (py_endswith dquote (split_last "InChI=" (py_strip w)) = false ->
      py_endswith (newline ++ dquote) (split_last "InChI=" (py_strip w)) = false)
  /\ wrap_inchi (split_last "InChI=" (py_strip w)) =
     (if py_endswith dquote (split_last "InChI=" (py_strip w))
      then dquote ++ "InChI=" ++ split_last "InChI=" (py_strip w)
      else dquote ++ "InChI=" ++ split_last "InChI=" (py_strip w) ++ dquote)%string.
Proof.
  set (t := split_last "InChI=" (py_strip w)).
  assert (py_endswith newline t = false) as Hnl.
  { destruct (py_endswith newline t) eqn:E; [ | reflexivity].
    apply py_endswith_last_char in E.
    destruct (payload_last_char w) as [N | (c & Hc & Hsp)].
    - fold t in N. congruence.
    - fold t in Hc. rewrite E in Hc. injection Hc as <-. discriminate. }
  assert (py_endswith dquote t = false ->
          py_endswith (newline ++ dquote) t = false) as Hnq.
  { intros Hq. destruct (py_endswith (newline ++ dquote) t) eqn:E; [ | reflexivity].
    apply py_endswith_inv in E as [b E].
    rewrite E, <- append_assoc, py_endswith_dquote in Hq. discriminate. }
  repeat split; [exact Hnl | exact Hnq | ].
  unfold wrap_inchi. destruct (py_endswith dquote t) eqn:Eq; [reflexivity | ].
  rewrite Hnl, (Hnq eq_refl). reflexivity.
Qed.

End Harmonization.

(** * Charge coercion

    The readings of the charge are those of [convert_charge_to_int_spec]. *)

(** C6.  The statements on [charge], for any charge converter: a record
    whose charge is an [int] is left as it is; when the conversion of a
    charge that is not an [int] succeeds, the charge read back is that
    integer, every other key reads as before and [harmonize_defaults] stays;
    when the conversion gives nothing the record is left as it is.  With the
    converter of the spec, ["2+"] and ["2"] are read back as the integer 2
    and ["not-a-charge"] leaves the record as it is.  The charge of a pass
    that returns is the charge these statements give on the record the pass
    started from, and an exception of a pass is one of an earlier stage,
    never of the statements on [charge]. *)
Theorem charge_overwritten_only_on_success
  (float_of_str : string -> option float)
  (_convert_charge_to_int : pyvalue -> option Z) (self : Metadata) :
  (isinstance_int (get self "charge") = true ->
   harmonize_charge _convert_charge_to_int self = self)
  /\ (forall z,
        isinstance_int (get self "charge") = false ->
        _convert_charge_to_int (get self "charge") = Some z ->
        get (harmonize_charge _convert_charge_to_int self) "charge" = VInt z
        /\ (forall k,
              k <> "charge" ->
              get (harmonize_charge _convert_charge_to_int self) k = get self k)
        /\ harmonize_defaults (harmonize_charge _convert_charge_to_int self) =
           harmonize_defaults self)
  /\ (_convert_charge_to_int (get self "charge") = None ->
      harmonize_charge _convert_charge_to_int self = self)
  /\ (get self "charge" = VStr "2+" \/ get self "charge" = VStr "2" ->
      get (harmonize_charge convert_charge_to_int_spec self) "charge" = VInt 2)
  /\ (get self "charge" = VStr "not-a-charge" ->
      harmonize_charge convert_charge_to_int_spec self = self)
  /\ (forall s1,
        harmonize_metadata float_of_str _convert_charge_to_int self = Ok s1 ->
        get s1 "charge" =
        get (harmonize_charge _convert_charge_to_int self) "charge")
  /\ (forall e,
        harmonize_metadata float_of_str _convert_charge_to_int self = Raise e ->
        harmonize_ionmode self = Raise e
        \/ exists r,
             harmonize_ionmode self = Ok r /\
             _add_precursor_mz_metadata float_of_str (_data r) = Raise e).
Proof.
  split; [ | split; [ | split; [ | split; [ | split; [ | split]]]]].
  - intros Hi. unfold harmonize_charge. rewrite Hi. reflexivity.
  - intros z Hi Hc. split; [ | split].
    + rewrite get_harmonize_charge, Hi, Hc. reflexivity.
    + intros k Hk. unfold get, dict_get.
      rewrite harmonize_charge_other_keys by exact Hk. reflexivity.
    + apply harmonize_charge_flag.
  - intros Hc. unfold harmonize_charge. rewrite Hc. cbn.
    rewrite andb_false_r. reflexivity.
  - intros [E | E]; rewrite get_harmonize_charge, E; reflexivity.
  - intros E. unfold harmonize_charge. rewrite E. reflexivity.
  - intros s1 H. apply (pass_charge _ _ _ _ H).
  - intros e H. unfold harmonize_metadata, _interpret_pepmass_metadata in H.
    cbn [rbind] in H. rewrite with_data_id in H.
    destruct (harmonize_ionmode self) as [r | e'] eqn:Hi; cbn [rbind] in H.
    + right. exists r. split; [reflexivity | ].
      destruct (_add_precursor_mz_metadata float_of_str (_data r)) as [d | e''];
        cbn [rbind] in H; [discriminate | congruence].
    + left. congruence.
Qed.

(** * The theorems on concrete records

    [float(s)] is read by [float_of_decimal], the charge converter is
    [convert_charge_to_int_spec]. *)

(** C1, the resolution theorem applied to the record of the spec's example:
    [precursormz = "100.5"] wins over [pepmass = [50.25, 10]]. *)
Lemma resolution_first_present_key_witness :
  _add_precursor_mz_metadata float_of_decimal (record_of items_alias_and_pepmass) =
  Ok (delete "precursor_mass"
        (delete "precursormz"
           (<["precursor_mz" := VFloat 100.5]> (record_of items_alias_and_pepmass)))).
Proof.
  apply (proj1 (precursor_mz_resolution_first_present_key float_of_decimal
                  (record_of items_alias_and_pepmass))).
  - vm_compute. discriminate.
  - vm_compute. reflexivity.
Defined.

(** C1 as stated fails: an alias key holding a number does not decide the
    outcome when an earlier candidate key is present without a value.  With
    [precursormz = "N/A"], [precursor_mass = 100.5] and
    [pepmass = [50.25, 10]] the fallback token is stored and both alias keys
    stay. *)
Lemma alias_value_not_preferred :
  ~ (forall (metadata : gmap string pyvalue) key value f,
       In key _accepted_keys ->
       metadata !! key = Some value ->
       _convert_precursor_mz float_of_decimal value = VFloat f ->
       is_Some (metadata !! "pepmass") ->
       exists m,
         _add_precursor_mz_metadata float_of_decimal metadata = Ok m /\
         m !! "precursor_mz" = Some (VFloat f) /\
         m !! "precursormz" = None /\ m !! "precursor_mass" = None).
Proof.
  intros H.
  destruct (H (record_of items_two_aliases) "precursor_mass" (VFloat 100.5)
              100.5%float) as (m & Hm & _ & H1 & _).
  - cbn. auto.
  - vm_compute. reflexivity.
  - reflexivity.
  - eexists. vm_compute. reflexivity.
  - vm_compute in Hm. injection Hm as <-. vm_compute in H1. discriminate.
Qed.



(** C3, evaluated on [pepmass = 120.5]. *)
Lemma scalar_pepmass_raises_witness :
  _add_precursor_mz_metadata float_of_decimal (record_of items_scalar_pepmass) =
  Raise TypeError.
Proof.
  apply (proj1 (scalar_pepmass_raises float_of_decimal
                  (record_of items_scalar_pepmass)
                  ltac:(vm_compute; reflexivity)) (SFloat 120.5)).
  - vm_compute. reflexivity.
  - left. eexists. reflexivity.
Defined.

(** C4, on a record with an array of two intensities and a copy whose second
    intensity is 3.5 instead of 2.5. *)
Lemma metadata_equality_witness :
  __eq__ np_all_eq_other_sample np_ne_truth_sample
    (mkMetadata (record_of items_intensities) false)
    (setitem_data (mkMetadata (record_of items_intensities) false)
       "intensities" (VArray (<[1%nat := 3.5%float]> [1%float; 2.5%float]))) =
  Ok false.
Proof.
  apply (proj2 (proj2 (proj2 (proj2
           (metadata_equality np_all_eq_other_sample np_ne_truth_sample
              (mkMetadata (record_of items_intensities) false)
              (mkMetadata (record_of items_intensities) false)))))
           "intensities" [1%float; 2.5%float] 1%nat 2.5%float 3.5%float).
  - vm_compute. reflexivity.
  - reflexivity.
  - vm_compute. reflexivity.
Defined.

(** C5, on a record with [ionmode = "POSITIVE"]. *)
Lemma ionmode_always_present_witness :
  exists s1,
    harmonize_metadata float_of_decimal convert_charge_to_int_spec
      (mkMetadata (record_of items_raw) true) = Ok s1 /\
    _data s1 !! "ionmode" = Some (VStr "positive").
Proof.
  eexists. split; [vm_compute; reflexivity | ].
  apply (proj1 (proj2 (ionmode_always_present
                         float_of_decimal convert_charge_to_int_spec
                         (mkMetadata (record_of items_raw) true) _
                         ltac:(vm_compute; reflexivity))) "POSITIVE").
  vm_compute. reflexivity.
Defined.

(** C6, on a record with [charge = "2+"]. *)
Lemma charge_overwritten_witness :
  get (harmonize_charge convert_charge_to_int_spec
         (mkMetadata (record_of items_raw) true)) "charge" = VInt 2.
Proof.
  apply (proj1 (proj2 (proj2 (proj2
           (charge_overwritten_only_on_success
              float_of_decimal convert_charge_to_int_spec
              (mkMetadata (record_of items_raw) true)))))).
  left. vm_compute. reflexivity.
Defined.

(** C7, on a list passed as the constructor argument. *)
Lemma constructor_rejects_list_witness :
  __init__ float_of_decimal convert_charge_to_int_spec
    (ArgValue (VList [SInt 1])) true =
  Raise (ValueError
    "Unexpected data type for metadata (should be dictionary, or None).").
Proof.
  apply (proj1 (constructor_rejects_non_mapping
                  float_of_decimal convert_charge_to_int_spec)).
  discriminate.
Defined.

(** C8, on the quoted InChI of ethanol. *)
Lemma canonical_inchi_unchanged_witness :
  clean_inchis float_of_decimal convert_charge_to_int_spec
    mol_converter_sample np_in_sample
    (mkSpectrum (mkMetadata
       (record_of [("inchi", VStr (canonical_inchi ethanol_payload))]) false))
    true =
  ([], Ok (mkSpectrum (mkMetadata
       (record_of [("inchi", VStr (canonical_inchi ethanol_payload))]) false))).
Proof.
  apply (proj2 (proj2 (canonical_inchi_unchanged
                         float_of_decimal convert_charge_to_int_spec
                         mol_converter_sample np_in_sample
                         (mkSpectrum (mkMetadata
                            (record_of
                               [("inchi", VStr (canonical_inchi ethanol_payload))])
                            false))
                         true ethanol_payload
                         ltac:(vm_compute; reflexivity)
                         ltac:(vm_compute; reflexivity)))).
  reflexivity.
Defined.

(** C9, the amended theorem on [inchi = "N/A"]. *)
Lemma listed_empty_entry_witness :
  repaired_inchi mol_converter_sample np_in_sample
    (__getitem__ (mkMetadata (record_of [("inchi", VStr "N/A")]) false) "inchi")
    true =
  ([], Ok (VStr "n/a")).
Proof.
  apply (proj1 (listed_empty_entry_becomes_na
                  float_of_decimal convert_charge_to_int_spec
                  mol_converter_sample np_in_sample
                  (mkSpectrum (mkMetadata (record_of [("inchi", VStr "N/A")]) false))
                  true)).
  vm_compute. reflexivity.
Defined.

(** C9 as stated fails on strings of white space that are not in the list:
    a single space makes [clean_inchis] raise [IndexError], a single newline
    is wrapped into the quoted empty body instead of becoming ["n/a"]. *)
Lemma whitespace_only_inchi_not_na :
  clean_inchis float_of_decimal convert_charge_to_int_spec
    mol_converter_sample np_in_sample
    (mkSpectrum (mkMetadata (record_of [("inchi", VStr " ")]) false)) true =
  ([], Raise IndexError)
  /\ repaired_inchi mol_converter_sample np_in_sample (VStr newline) true =
     ([], Ok (VStr (dquote ++ "InChI=" ++ dquote))).
Proof. split; vm_compute; reflexivity. Qed.

(** C10, on a spectrum whose record has no key at all. *)
Lemma missing_inchi_raises_witness :
  clean_inchis float_of_decimal convert_charge_to_int_spec
    mol_converter_sample np_in_sample
    (mkSpectrum (mkMetadata (record_of []) false)) true =
  ([], Raise AttributeError).
Proof.
  apply (proj2 (proj2 (missing_inchi_raises
                         float_of_decimal convert_charge_to_int_spec
                         mol_converter_sample np_in_sample
                         (mkSpectrum (mkMetadata (record_of []) false)) true
                         ltac:(vm_compute; reflexivity)))).
Defined.

(** ** The further properties on concrete records *)

(** A record built from items none of which is an array holds no array. *)
Lemma array_free_items (its : list (string * pyvalue)) hd :
  forallb (fun kv => negb (isinstance_ndarray kv.2)) its = true ->
  array_free (mkMetadata (record_of its) hd).
Proof.
  intros H key value Hl. cbn in Hl. unfold record_of in Hl.
  apply elem_of_list_to_map_2, list_elem_of_In in Hl.
  rewrite forallb_forall in H. apply H in Hl.
  cbn in Hl. destruct (isinstance_ndarray value); [discriminate | reflexivity].
Qed.

(** X2, on the record of the spec's priority example: [pepmass] stays. *)
Lemma resolution_frame_witness :
  exists d,
    _add_precursor_mz_metadata float_of_decimal
      (record_of items_alias_and_pepmass) = Ok d /\
    d !! "pepmass" = record_of items_alias_and_pepmass !! "pepmass".
Proof.
  eexists. split; [vm_compute; reflexivity | ].
  apply (proj1 (proj2 (resolution_frame float_of_decimal
                         (record_of items_alias_and_pepmass) _
                         ltac:(vm_compute; reflexivity)))).
Defined.

(** X3, on [pepmass = 120.5]: the exception is that of the subscript. *)
Lemma resolution_raises_only_witness :
  py_index0 (dict_get (record_of items_scalar_pepmass) "pepmass") =
  Raise TypeError.
Proof.
  destruct (resolution_raises_only float_of_decimal
              (record_of items_scalar_pepmass) TypeError
              ltac:(vm_compute; reflexivity)) as [[E _] | (_ & _ & H)].
  - discriminate E.
  - exact H.
Defined.

(** X4, on [precursor_mz = 10 ** 400] beside a usable [pepmass]. *)
Lemma resolution_overflow_witness :
  _add_precursor_mz_metadata float_of_decimal
    (record_of [("precursor_mz", VInt (10 ^ 400));
                ("pepmass", VList [SFloat 50.25; SInt 10])]) =
  Raise OverflowError.
Proof.
  apply (resolution_overflow float_of_decimal _ (10 ^ 400)).
  - vm_compute. reflexivity.
  - vm_compute. reflexivity.
Defined.

(** X5, on [precursormz = "N/A"] beside [pepmass = [120.5, 5]]. *)
Lemma resolution_settles_witness :
  exists d d',
    _add_precursor_mz_metadata float_of_decimal
      (record_of items_unusable_alias) = Ok d /\
    _add_precursor_mz_metadata float_of_decimal d = Ok d' /\
    _add_precursor_mz_metadata float_of_decimal d' = Ok d'.
Proof.
  eexists. eexists.
  split; [vm_compute; reflexivity | ].
  split; [vm_compute; reflexivity | ].
  apply (resolution_settles float_of_decimal
           (record_of items_unusable_alias) _ _
           ltac:(vm_compute; reflexivity) ltac:(vm_compute; reflexivity)).
Defined.

(** X6, on [pepmass = "7 or so"]: the character ["7"] is stored. *)
Lemma resolution_string_pepmass_witness :
  _add_precursor_mz_metadata float_of_decimal
    (record_of [("pepmass", VStr "7 or so")]) =
  Ok (<["precursor_mz" := VStr "7"]> (record_of [("pepmass", VStr "7 or so")])).
Proof.
  apply (resolution_string_pepmass float_of_decimal
           (record_of [("pepmass", VStr "7 or so")]) "7" " or so" 7%float).
  - vm_compute. reflexivity.
  - vm_compute. reflexivity.
  - vm_compute. reflexivity.
Defined.

(** X7, on [precursormz = "N/A"] beside [pepmass = [120.5, 5]]. *)
Lemma harmonize_settles_witness :
  exists s1 s2,
    harmonize_metadata float_of_decimal convert_charge_to_int_spec
      (mkMetadata (record_of items_unusable_alias) true) = Ok s1 /\
    harmonize_metadata float_of_decimal convert_charge_to_int_spec s1 = Ok s2 /\
    harmonize_metadata float_of_decimal convert_charge_to_int_spec s2 = Ok s2.
Proof.
  eexists. eexists.
  split; [vm_compute; reflexivity | ].
  split; [vm_compute; reflexivity | ].
  apply (harmonize_settles_after_two_passes
           float_of_decimal convert_charge_to_int_spec
           (mkMetadata (record_of items_unusable_alias) true) _ _
           ltac:(vm_compute; reflexivity) ltac:(vm_compute; reflexivity)).
Defined.

(** X9, on [ionmode = 1]. *)
Lemma harmonize_non_string_ionmode_witness :
  harmonize_metadata float_of_decimal convert_charge_to_int_spec
    (mkMetadata (record_of [("ionmode", VInt 1)]) true) =
  Raise AttributeError.
Proof.
  apply (harmonize_non_string_ionmode_raises
           float_of_decimal convert_charge_to_int_spec).
  - vm_compute. reflexivity.
  - vm_compute. reflexivity.
Defined.

(** X10, on [charge = "2+"]. *)
Lemma harmonize_charge_invariant_witness :
  exists s1,
    harmonize_metadata float_of_decimal convert_charge_to_int_spec
      (mkMetadata (record_of items_raw) true) = Ok s1 /\
    get s1 "charge" = VInt 2.
Proof.
  eexists. split; [vm_compute; reflexivity | ].
  apply (proj1 (proj2 (harmonize_charge_invariant
                         float_of_decimal convert_charge_to_int_spec
                         (mkMetadata (record_of items_raw) true) _
                         ltac:(vm_compute; reflexivity))) 2).
  - vm_compute. reflexivity.
  - vm_compute. reflexivity.
Defined.

(** X12, writing [ionmode = "Negative"] to an empty record. *)
Lemma set_normalises_witness :
  exists s1,
    set float_of_decimal convert_charge_to_int_spec
      (mkMetadata (record_of []) true) "ionmode" (VStr "Negative") = Ok s1 /\
    get s1 "ionmode" = VStr (py_lower "Negative").
Proof.
  eexists. split; [vm_compute; reflexivity | ].
  apply (proj1 (set_normalises float_of_decimal convert_charge_to_int_spec
                  (mkMetadata (record_of []) true) eq_refl)
           "Negative" _ ltac:(vm_compute; reflexivity)).
Defined.

(** X14, on a record whose retention time is NaN. *)
Lemma eq_reflexivity_witness :
  __eq__ np_all_eq_other_sample np_ne_truth_sample
    (mkMetadata (record_of [("retention_time", VFloat PrimFloat.nan)]) false)
    (mkMetadata (record_of [("retention_time", VFloat PrimFloat.nan)]) false) =
  Ok false.
Proof.
  apply (proj1 (proj2 (proj2
           (eq_reflexivity np_all_eq_other_sample np_ne_truth_sample
              (mkMetadata
                 (record_of [("retention_time", VFloat PrimFloat.nan)])
                 false))))
           "retention_time" PrimFloat.nan).
  - vm_compute. reflexivity.
  - vm_compute. reflexivity.
Defined.

(** X15, on two records without arrays. *)
Lemma eq_symmetric_witness :
  __eq__ np_all_eq_other_sample np_ne_truth_sample
    (mkMetadata (record_of items_raw) false)
    (mkMetadata (record_of items_alias_and_pepmass) false) =
  __eq__ np_all_eq_other_sample np_ne_truth_sample
    (mkMetadata (record_of items_alias_and_pepmass) false)
    (mkMetadata (record_of items_raw) false).
Proof.
  apply (proj2 (eq_symmetric_without_arrays
                  np_all_eq_other_sample np_ne_truth_sample
                  (mkMetadata (record_of items_raw) false)
                  (mkMetadata (record_of items_alias_and_pepmass) false)
                  (array_free_items items_raw false eq_refl)
                  (array_free_items items_alias_and_pepmass false eq_refl))).
Defined.

(** X16, on the unquoted InChI of ethanol. *)
Lemma clean_inchis_stores_witness :
  exists spectrum',
    clean_inchis float_of_decimal convert_charge_to_int_spec
      mol_converter_sample np_in_sample
      (mkSpectrum (mkMetadata
         (record_of [("inchi", VStr ("InChI=" ++ ethanol_payload))]) true))
      true = ([], Ok spectrum') /\
    (get (metadata spectrum') "inchi" = VStr "n/a"
     \/ exists body,
          get (metadata spectrum') "inchi" = VStr (canonical_inchi body)).
Proof.
  eexists. split; [vm_compute; reflexivity | ].
  apply (clean_inchis_stores_na_or_quoted
           float_of_decimal convert_charge_to_int_spec
           mol_converter_sample np_in_sample
           (mkSpectrum (mkMetadata
              (record_of [("inchi", VStr ("InChI=" ++ ethanol_payload))]) true))
           _ true [] ltac:(vm_compute; reflexivity)).
Defined.

(** X17, on [inchi = "N/A"]: no call. *)
Lemma converter_called_at_most_once_witness :
  (repaired_inchi mol_converter_sample np_in_sample (VStr "N/A") true).1 = [].
Proof.
  apply (proj1 (proj2 (proj2 (converter_called_at_most_once
                                float_of_decimal convert_charge_to_int_spec
                                mol_converter_sample np_in_sample
                                (VStr "N/A") true)))).
  vm_compute. reflexivity.
Defined.

(** X18, on an [inchi] of three spaces. *)
Lemma spaces_only_inchi_witness :
  clean_inchis float_of_decimal convert_charge_to_int_spec
    mol_converter_sample np_in_sample
    (mkSpectrum (mkMetadata (record_of [("inchi", VStr "   ")]) true)) true =
  ([], Raise IndexError).
Proof.
  apply (spaces_only_inchi_raises float_of_decimal convert_charge_to_int_spec
           mol_converter_sample np_in_sample _ true "   ").
  - vm_compute. reflexivity.
  - vm_compute. reflexivity.
  - discriminate.
Defined.

(** X19, on [inchi = 7]. *)
Lemma non_string_inchi_witness :
  clean_inchis float_of_decimal convert_charge_to_int_spec
    mol_converter_sample np_in_sample
    (mkSpectrum (mkMetadata (record_of [("inchi", VInt 7)]) true)) true =
  ([], Raise AttributeError).
Proof.
  apply (non_string_inchi_raises float_of_decimal convert_charge_to_int_spec
           mol_converter_sample np_in_sample).
  - vm_compute. reflexivity.
  - vm_compute. reflexivity.
Defined.

(** X20, on the SMILES of acetic acid given as an InChI. *)
Lemma rescue_uses_converter_output_witness :
  (repaired_inchi mol_converter_sample np_in_sample
     (VStr ("InChI=" ++ "CC(=O)O")) true).2 =
  Ok (VStr (wrap_inchi
              (split_last "InChI="
                 (py_strip "InChI=1S/C2H4O2/c1-2(3)4/h1H3,(H,3,4)")))).
Proof.
  apply (proj2 (proj2 (proj2 (rescue_uses_converter_output
                                mol_converter_sample np_in_sample "CC(=O)O"
                                ltac:(vm_compute; reflexivity)
                                ltac:(vm_compute; reflexivity)
                                ltac:(vm_compute; reflexivity))))).
  vm_compute. reflexivity.
Defined.

(** X21, on an InChI followed by a newline. *)
Lemma wrapper_never_truncates_witness :
  py_endswith (newline ++ dquote)
    (split_last "InChI=" (py_strip ("InChI=1S/H2O/h1H2" ++ newline))) = false.
Proof.
  apply (proj1 (proj2 (wrapper_never_truncates
                         ("InChI=1S/H2O/h1H2" ++ newline)))).
  vm_compute. reflexivity.
Defined.
